(** * redditCRUD: the Reddit facade and its Streamlit front end

    A shallow embedding of [RedditManager.py] (credential loading and the
    five post operations) and of [app.py] (one run of the Streamlit
    script), followed by the properties the specification states about
    them.

    Python exceptions do not roll the program state back, so the
    computations below are state transformers that return either a
    value or a raised exception, with the state kept in both cases. *)

From stdpp Require Import base option list strings gmap pretty.
From Stdlib Require Import ZArith Lia.

Local Open Scope string_scope.
Local Open Scope Z_scope.

(** ** Exceptions and results *)

(** A Python exception object: its class name and the text that
    [str(e)] gives.  Every exception modelled here derives from
    [Exception], which is what the facade's handlers catch. *)
Record exn := Exn { exn_class : string; exn_msg : string }.

Definition ValueError (msg : string) : exn := Exn "ValueError" msg.
Definition NameError (name : string) : exn :=
  Exn "NameError" ("name '" +:+ name +:+ "' is not defined").
Definition KeyError (key : string) : exn := Exn "KeyError" ("'" +:+ key +:+ "'").
Definition AttributeError (msg : string) : exn := Exn "AttributeError" msg.

Inductive result (A : Type) : Type :=
  | Ok (a : A)
  | Raise (e : exn).
Arguments Ok {A} a.
Arguments Raise {A} e.

(** ** Computations: state passing with exceptions *)

Definition Comp (S A : Type) : Type := S → S * result A.

Definition ret {S A} (a : A) : Comp S A := λ s, (s, Ok a).

Definition bind {S A B} (c : Comp S A) (k : A → Comp S B) : Comp S B :=
  λ s, match c s with
       | (s', Ok a) => k a s'
       | (s', Raise e) => (s', Raise e)
       end.

Definition raise {S A} (e : exn) : Comp S A := λ s, (s, Raise e).

(** [try: body except Exception as e: handler e] *)
Definition try_except {S A} (body : Comp S A) (handler : exn → Comp S A)
  : Comp S A :=
  λ s, match body s with
       | (s', Ok a) => (s', Ok a)
       | (s', Raise e) => handler e s'
       end.

Definition gets {S A} (f : S → A) : Comp S A := λ s, (s, Ok (f s)).
Definition modify {S} (f : S → S) : Comp S unit := λ s, (f s, Ok tt).
Definition lift_result {S A} (r : result A) : Comp S A := λ s, (s, r).

Declare Scope comp_scope.
Delimit Scope comp_scope with comp.
Notation "x <- c ;; k" := (bind c (λ x, k))
  (at level 100, c at next level, right associativity) : comp_scope.
Notation "c >> k" := (bind c (λ _, k))
  (at level 100, right associativity) : comp_scope.
Local Open Scope comp_scope.

(** ** Python values held in dictionaries *)

Inductive pyval :=
  | PStr (s : string)
  | PInt (z : Z)
  | PDatetime (d : Z).

(** ** The remote service

    What PRAW fetches for one submission.  [created_utc] is the epoch
    time in seconds; [author] is [None] for a post whose account is
    gone. *)
Record SubmissionData := {
  sd_id : string;
  sd_title : string;
  sd_selftext : string;
  sd_score : Z;
  sd_url : string;
  sd_created_utc : Z;
  sd_author : option string;
  sd_num_comments : Z
}.

(** The requests that the calls of the facade send to the remote
    service, one constructor per PRAW call that reaches the network. *)
Inductive request :=
  | ReqSubmitSelftext (subreddit title selftext : string)
  | ReqSubmitUrl (subreddit title url : string)
  | ReqSubmitImage (subreddit title image_path : string)
  | ReqFetch (id : string)
  | ReqEdit (id body : string)
  | ReqDelete (id : string)
  | ReqMe
  | ReqSubmissionsNew (user : string) (limit : nat).

Definition response (r : request) : Type :=
  match r with
  | ReqSubmitSelftext _ _ _ | ReqSubmitUrl _ _ _ | ReqSubmitImage _ _ _ => string
  | ReqFetch _ => SubmissionData
  | ReqEdit _ _ | ReqDelete _ => unit
  | ReqMe => string
  | ReqSubmissionsNew _ _ => list SubmissionData
  end.

(** The collaborators outside the repository: the remote service behind
    the PRAW session, the host's [datetime.fromtimestamp] (which raises
    on a time it cannot represent) and [str] of the datetime it builds.
    [World] is the state of the remote service. *)
Class Backend (World : Type) := {
  remote : ∀ r : request, World → World * result (response r);
  fromtimestamp : Z → result Z;
  datetime_str : Z → string
}.

(** The listing call yields at most [limit] items; PRAW's listing
    generator stops there. *)
Class BackendLimit (World : Type) `{Backend World} := {
  submissions_new_limit : ∀ user limit w w' posts,
    remote (ReqSubmissionsNew user limit) w = (w', Ok posts) →
    (length posts ≤ limit)%nat
}.

(** ** Logging and the process state *)

Inductive level := INFO | ERROR.

(** One emitted log record: logger name, level, message. *)
Definition log_record : Type := string * level * string.

(** Everything outside the facade object: the remote service, the
    requests sent to it so far (oldest first), and the log output. *)
Record Proc (World : Type) := MkProc {
  p_world : World;
  p_calls : list request;
  p_log : list log_record
}.
Arguments MkProc {World}.
Arguments p_world {World}.
Arguments p_calls {World}.
Arguments p_log {World}.

Section Primitives.
Context {World : Type} `{Backend World}.

(** Send one request to the remote service. *)
Definition perform (r : request) : Comp (Proc World) (response r) :=
  λ p, let '(w', res) := remote r (p_world p) in
       (MkProc w' (p_calls p ++ [r]) (p_log p), res).

Definition emit (name : string) (lvl : level) (msg : string)
  : Comp (Proc World) unit :=
  modify (λ p, MkProc (p_world p) (p_calls p) (p_log p ++ [(name, lvl, msg)])).
End Primitives.

(** * RedditManager.py *)
Module RedditManager.

(** The [praw.Reddit] instance: it stores its configuration and sends
    nothing until an operation needs the network. *)
Record Reddit := MkReddit {
  cfg_client_id : option string;
  cfg_client_secret : option string;
  cfg_user_agent : option string;
  cfg_username : option string;
  cfg_password : option string
}.

(** Lazy PRAW handles: building one sends no request. *)
Record Subreddit := MkSubreddit { display_name : string }.
Record Submission := MkSubmission { submission_id : string }.

Definition subreddit (_ : Reddit) (name : string) : Subreddit :=
  MkSubreddit name.
Definition submission (_ : Reddit) (id : string) : Submission :=
  MkSubmission id.

(** The attributes that [__init__] assigns to [self]. *)
Record RedditManager := MkRedditManager {
  client_id : option string;
  client_secret : option string;
  username : option string;
  password : option string;
  user_agent : option string;
  reddit : Reddit;
  logger : string
}.

(** [os.getenv] on the environment after [load_dotenv()]. *)
Definition getenv (env : gmap string string) (var : string) : option string :=
  env !! var.

(** Truth value of an [Optional[str]]: [None] and [''] are false. *)
Definition truthy (v : option string) : bool :=
  match v with
  | None => false
  | Some s => negb (bool_decide (s = ""))
  end.

Definition required_vars : list string :=
  ["REDDIT_CLIENT_ID"; "REDDIT_CLIENT_SECRET"; "REDDIT_USERNAME";
   "REDDIT_PASSWORD"; "REDDIT_USER_AGENT"].

Definition missing_vars (env : gmap string string) : list string :=
  List.filter (λ var, negb (truthy (getenv env var))) required_vars.

Definition missing_message (missing : list string) : string :=
  "Missing required environment variables: " +:+ String.concat ", " missing.

(** The module name under which the logger is created. *)
Definition module_name : string := "RedditManager".

Section Methods.
Context {World : Type} `{Backend World}.

Definition __init__ (env : gmap string string)
  : Comp (Proc World) RedditManager :=
  let client_id := getenv env "REDDIT_CLIENT_ID" in
  let client_secret := getenv env "REDDIT_CLIENT_SECRET" in
  let username := getenv env "REDDIT_USERNAME" in
  let password := getenv env "REDDIT_PASSWORD" in
  let user_agent := getenv env "REDDIT_USER_AGENT" in
  match missing_vars env with
  | _ :: _ => raise (ValueError (missing_message (missing_vars env)))
  | [] =>
      let reddit :=
        MkReddit client_id client_secret user_agent username password in
      let logger := module_name in
      emit logger INFO "Reddit Manager initialized successfully" >>
      ret (MkRedditManager client_id client_secret username password
                           user_agent reddit logger)
  end.

(** The state a method runs in: the object bound to [self], and the
    rest of the process. *)
Record State := MkState {
  st_self : RedditManager;
  st_proc : Proc World
}.

(** Run a process-level computation from inside a method. *)
Definition in_proc {A} (c : Comp (Proc World) A) : Comp State A :=
  λ s, let '(p', res) := c (st_proc s) in (MkState (st_self s) p', res).

Definition self_reddit : Comp State Reddit :=
  gets (λ s, reddit (st_self s)).

(** [self.logger.info(msg)] and [self.logger.error(msg)] *)
Definition logger_info (msg : string) : Comp State unit :=
  name <- gets (λ s, logger (st_self s));;
  in_proc (emit name INFO msg).
Definition logger_error (msg : string) : Comp State unit :=
  name <- gets (λ s, logger (st_self s));;
  in_proc (emit name ERROR msg).

(** [subreddit.submit(title=.., selftext=..)], [subreddit.submit(title=.., url=..)]
    and [subreddit.submit_image(title=.., image_path=..)] *)
Definition submit_selftext (sr : Subreddit) (title selftext : string)
  : Comp State Submission :=
  id <- in_proc (perform (ReqSubmitSelftext (display_name sr) title selftext));;
  ret (MkSubmission id).
Definition submit_url (sr : Subreddit) (title url : string)
  : Comp State Submission :=
  id <- in_proc (perform (ReqSubmitUrl (display_name sr) title url));;
  ret (MkSubmission id).
Definition submit_image (sr : Subreddit) (title image_path : string)
  : Comp State Submission :=
  id <- in_proc (perform (ReqSubmitImage (display_name sr) title image_path));;
  ret (MkSubmission id).

Definition invalid_post_type : string :=
  "Invalid post type. Must be 'text', 'link', or 'image'".

(** [post_type] is [None] when the caller leaves the argument out. *)
Definition create_post (subreddit_name title content : string)
    (post_type : option string) : Comp State (option string) :=
  let post_type := default "text" post_type in
  try_except
    (r <- self_reddit;;
     let subreddit := subreddit r subreddit_name in
     post <- (if bool_decide (post_type = "text") then
                submit_selftext subreddit title content
              else if bool_decide (post_type = "link") then
                submit_url subreddit title content
              else if bool_decide (post_type = "image") then
                submit_image subreddit title content
              else raise (ValueError invalid_post_type));;
     logger_info ("Created post: " +:+ submission_id post) >>
     ret (Some (submission_id post)))
    (λ e,
     logger_error ("Error creating post: " +:+ exn_msg e) >>
     ret None).

(** [str(post.author)] *)
Definition str_author (a : option string) : string :=
  match a with Some name => name | None => "None" end.

(** The first attribute read after [post.id] loads the submission. *)
Definition read_post (post_id : string)
  : Comp State (option (gmap string pyval)) :=
  try_except
    (r <- self_reddit;;
     let post := submission r post_id in
     d <- in_proc (perform (ReqFetch (submission_id post)));;
     created <- lift_result (fromtimestamp (sd_created_utc d));;
     let post_data : gmap string pyval :=
       <["id" := PStr (submission_id post)]>
       (<["title" := PStr (sd_title d)]>
       (<["content" := PStr (sd_selftext d)]>
       (<["score" := PInt (sd_score d)]>
       (<["url" := PStr (sd_url d)]>
       (<["created_utc" := PDatetime created]>
       (<["author" := PStr (str_author (sd_author d))]>
       (<["num_comments" := PInt (sd_num_comments d)]> ∅))))))) in
     ret (Some post_data))
    (λ e,
     logger_error ("Error reading post: " +:+ exn_msg e) >>
     ret None).

Definition update_post (post_id new_content : string) : Comp State bool :=
  try_except
    (r <- self_reddit;;
     let post := submission r post_id in
     in_proc (perform (ReqEdit (submission_id post) new_content)) >>
     logger_info ("Updated post: " +:+ post_id) >>
     ret true)
    (λ e,
     logger_error ("Error updating post: " +:+ exn_msg e) >>
     ret false).

Definition delete_post (post_id : string) : Comp State bool :=
  try_except
    (r <- self_reddit;;
     let post := submission r post_id in
     in_proc (perform (ReqDelete (submission_id post))) >>
     logger_info ("Deleted post: " +:+ post_id) >>
     ret true)
    (λ e,
     logger_error ("Error deleting post: " +:+ exn_msg e) >>
     ret false).

(** One entry of the list that [get_recent_posts] builds. *)
Definition post_entry (d : SubmissionData) : gmap string string :=
  <["title" := sd_title d]> (<["id" := sd_id d]> ∅).

(** [limit] is [None] when the caller leaves the argument out. *)
Definition get_recent_posts (limit : option nat)
  : Comp State (list (gmap string string)) :=
  let limit := default 10%nat limit in
  try_except
    (r <- self_reddit;;
     user <- in_proc (perform ReqMe);;
     recent_posts <- in_proc (perform (ReqSubmissionsNew user limit));;
     let posts_data := map post_entry recent_posts in
     ret posts_data)
    (λ e,
     logger_error ("Error fetching user's recent posts: " +:+ exn_msg e) >>
     ret []).
End Methods.
Arguments State World : clear implicits.
End RedditManager.

(** * app.py *)
Module App.
Import RedditManager.

(** What one run of the script puts on the page, in order. *)
Inductive widget :=
  | st_error (msg : string)
  | st_warning (msg : string)
  | st_success (msg : string)
  | st_info (msg : string)
  | st_header (text : string)
  | st_write (text : string)
  | st_write_dict (d : gmap string pyval)
  | st_markdown (body : string)
  | st_sidebar_selectbox (label : string) (options : list string)
  | st_selectbox (label : string) (options : list string)
  | st_text_input (label : string)
  | st_text_area (label : string)
  | st_button (label : string).

(** The values the user has given to the widgets of this run: the
    position chosen in each select box, the text typed in each field,
    and whether the button of the form was pressed. *)
Record Inputs := MkInputs {
  in_platform : nat;
  in_operation : nat;
  in_subreddit_name : string;
  in_title : string;
  in_content : string;
  in_post_type : nat;
  in_select_post : nat;
  in_new_content : string;
  in_button : bool
}.

Definition platforms : list string :=
  ["Reddit"; "YouTube"; "Facebook"; "Instagram"; "Twitter"; "LinkedIn"].
Definition operations : list string :=
  ["Create Post"; "Read Post"; "Update Post"; "Delete Post"].
Definition post_types : list string := ["text"; "link"; "image"].

(** An insertion-ordered [dict] with string keys: assigning to a key
    that is present keeps its position. *)
Fixpoint od_set (k v : string) (d : list (string * string))
  : list (string * string) :=
  match d with
  | [] => [(k, v)]
  | (k', v') :: rest =>
      if bool_decide (k' = k) then (k, v) :: rest
      else (k', v') :: od_set k v rest
  end.

Fixpoint od_get (k : string) (d : list (string * string)) : option string :=
  match d with
  | [] => None
  | (k', v') :: rest => if bool_decide (k' = k) then Some v' else od_get k rest
  end.

Definition od_keys (d : list (string * string)) : list string := map fst d.

(** [d[key]] on a [dict] *)
Definition getitem (d : gmap string string) (key : string) : result string :=
  match d !! key with
  | Some v => Ok v
  | None => Raise (KeyError key)
  end.

(** [{post['title']: post['id'] for post in recent_posts}] *)
Fixpoint post_titles_of (recent_posts : list (gmap string string))
    (acc : list (string * string)) : result (list (string * string)) :=
  match recent_posts with
  | [] => Ok acc
  | post :: rest =>
      match getitem post "title" with
      | Raise e => Raise e
      | Ok k =>
          match getitem post "id" with
          | Raise e => Raise e
          | Ok v => post_titles_of rest (od_set k v acc)
          end
      end
  end.

Definition post_url (subreddit_name post_id : string) : string :=
  "https://www.reddit.com/r/" +:+ subreddit_name +:+ "/comments/" +:+ post_id +:+ "/".

Section Script.
Context {World : Type} `{Backend World}.

(** [str(v)], as an f-string applies it *)
Definition pystr (v : pyval) : string :=
  match v with
  | PStr s => s
  | PInt z => pretty z
  | PDatetime d => datetime_str d
  end.

(** The module's globals that matter, the rest of the process, and
    the page rendered so far. *)
Record AppState := MkApp {
  reddit_manager : option RedditManager;
  a_proc : Proc World;
  a_ui : list widget
}.

Definition show (w : widget) : Comp AppState unit :=
  modify (λ a, MkApp (reddit_manager a) (a_proc a) (a_ui a ++ [w])).

(** A select box returns the option at the chosen position, the
    first one when nothing else was chosen. *)
Definition choose (options : list string) (i : nat) : string :=
  match options !! i with
  | Some o => o
  | None => hd "" options
  end.

Definition sidebar_selectbox (label : string) (options : list string)
    (i : nat) : Comp AppState string :=
  show (st_sidebar_selectbox label options) >> ret (choose options i).
Definition selectbox (label : string) (options : list string) (i : nat)
  : Comp AppState string :=
  show (st_selectbox label options) >> ret (choose options i).
Definition text_input (label value : string) : Comp AppState string :=
  show (st_text_input label) >> ret value.
Definition text_area (label value : string) : Comp AppState string :=
  show (st_text_area label) >> ret value.
Definition button (label : string) (pressed : bool) : Comp AppState bool :=
  show (st_button label) >> ret pressed.

(** [reddit_manager = RedditManager()]: the name is bound only when
    the constructor returns. *)
Definition construct (env : gmap string string) : Comp AppState unit :=
  λ a, match __init__ env (a_proc a) with
       | (p', Ok m) => (MkApp (Some m) p' (a_ui a), Ok tt)
       | (p', Raise e) => (MkApp (reddit_manager a) p' (a_ui a), Raise e)
       end.

(** [reddit_manager.method(...)]: looking the name up comes first. *)
Definition call_manager {A} (method : Comp (State World) A)
  : Comp AppState A :=
  λ a, match reddit_manager a with
       | None => (a, Raise (NameError "reddit_manager"))
       | Some self =>
           let '(s', res) := method (MkState self (a_proc a)) in
           (MkApp (Some (st_self s')) (st_proc s') (a_ui a), res)
       end.

Definition get_recent_posts_dropdown (i : nat)
  : Comp AppState (option string) :=
  recent_posts <- call_manager (get_recent_posts (Some 10%nat));;
  match recent_posts with
  | _ :: _ =>
      post_titles <- lift_result (post_titles_of recent_posts []);;
      selected_title <- selectbox "Select a Post" (od_keys post_titles) i;;
      selected_post_id <-
        lift_result (match od_get selected_title post_titles with
                     | Some v => Ok v
                     | None => Raise (KeyError selected_title)
                     end);;
      ret (Some selected_post_id)
  | [] =>
      show (st_warning "No recent posts found.") >> ret None
  end.

(** [if post_id and st.button(label):] the button is drawn only when
    [post_id] is true. *)
Definition and_button (post_id : option string) (label : string)
    (pressed : bool) : Comp AppState bool :=
  if truthy post_id then button label pressed else ret false.

Definition create_branch (inp : Inputs) : Comp AppState unit :=
  show (st_header "Create a New Reddit Post") >>
  subreddit_name <- text_input "Subreddit Name (without 'r/')" (in_subreddit_name inp);;
  title <- text_input "Post Title" (in_title inp);;
  content <- text_area "Post Content" (in_content inp);;
  post_type <- selectbox "Post Type" post_types (in_post_type inp);;
  pressed <- button "Create Post" (in_button inp);;
  if pressed : bool then
    post_id <- call_manager (create_post subreddit_name title content (Some post_type));;
    if truthy post_id then
      show (st_success ("Post created successfully! Post ID: " +:+ default "" post_id)) >>
      let post_url := post_url subreddit_name (default "" post_id) in
      show (st_markdown ("[View Post on Reddit](" +:+ post_url +:+ ")"))
    else
      show (st_error "Failed to create the post.")
  else ret tt.

Definition read_branch (inp : Inputs) : Comp AppState unit :=
  show (st_header "Read a Reddit Post") >>
  post_id <- get_recent_posts_dropdown (in_select_post inp);;
  go <- and_button post_id "Fetch Post" (in_button inp);;
  if go : bool then
    post_data <- call_manager (read_post (default "" post_id));;
    match post_data with
    | Some d =>
        if bool_decide (d = ∅) then show (st_error "Failed to fetch the post.")
        else show (st_write "Post details:") >> show (st_write_dict d)
    | None => show (st_error "Failed to fetch the post.")
    end
  else ret tt.

Definition update_branch (inp : Inputs) : Comp AppState unit :=
  show (st_header "Update an Existing Reddit Post") >>
  post_id <- get_recent_posts_dropdown (in_select_post inp);;
  new_content <- text_area "New Content" (in_new_content inp);;
  go <- and_button post_id "Update Post" (in_button inp);;
  if go : bool then
    let post_id := default "" post_id in
    update_success <- call_manager (update_post post_id new_content);;
    if update_success : bool then
      show (st_success "Post updated successfully!") >>
      post_data <- call_manager (read_post post_id);;
      subreddit_name <-
        match post_data with
        | Some d => ret (default (PStr "unknown") (d !! "subreddit"))
        | None =>
            raise (AttributeError "'NoneType' object has no attribute 'get'")
        end;;
      let post_url := post_url (pystr subreddit_name) post_id in
      show (st_markdown ("[View Updated Post on Reddit](" +:+ post_url +:+ ")"))
    else
      show (st_error "Failed to update the post.")
  else ret tt.

Definition delete_branch (inp : Inputs) : Comp AppState unit :=
  show (st_header "Delete a Reddit Post") >>
  post_id <- get_recent_posts_dropdown (in_select_post inp);;
  go <- and_button post_id "Delete Post" (in_button inp);;
  if go : bool then
    delete_success <- call_manager (delete_post (default "" post_id));;
    if delete_success : bool then
      show (st_success "Post deleted successfully!") >>
      show (st_info "Note: The post has been deleted, so it is no longer available on Reddit.")
    else
      show (st_error "Failed to delete the post.")
  else ret tt.

(** [if platform == "Reddit": ... else: ...] with the chain over
    [operation] inside. *)
Definition dispatch (platform operation : string) (inp : Inputs)
  : Comp AppState unit :=
  if bool_decide (platform = "Reddit") then
    if bool_decide (operation = "Create Post") then create_branch inp
    else if bool_decide (operation = "Read Post") then read_branch inp
    else if bool_decide (operation = "Update Post") then update_branch inp
    else if bool_decide (operation = "Delete Post") then delete_branch inp
    else ret tt
  else
    show (st_write (platform +:+ " integration coming soon!")).

Definition init_failed (e : exn) : widget :=
  st_error ("Failed to initialize RedditManager: " +:+ exn_msg e).

(** The script, top to bottom. *)
Definition script (env : gmap string string) (inp : Inputs)
  : Comp AppState unit :=
  try_except (construct env) (λ e, show (init_failed e)) >>
  platform <- sidebar_selectbox "Select Social Media Platform" platforms (in_platform inp);;
  operation <- sidebar_selectbox "Select Operation" operations (in_operation inp);;
  dispatch platform operation inp.

(** A fresh process: no global bound, nothing sent, nothing logged,
    an empty page. *)
Definition start (w : World) : AppState :=
  MkApp None (MkProc w [] []) [].

Definition run (env : gmap string string) (inp : Inputs) (w : World)
  : AppState * result unit :=
  script env inp (start w).
End Script.
Arguments AppState World : clear implicits.
End App.

(** * An in-memory remote service

    A small backend behind the same interface, used to run the facade
    and the script on concrete inputs: posts are kept newest first, a
    post can be edited or deleted by its author only, and new ids come
    from a supply. *)
Module MemReddit.

Record World := MkWorld {
  me : string;
  posts : list SubmissionData;
  supply : list string;
  clock : Z
}.

Definition Forbidden : exn := Exn "Forbidden" "received 403 HTTP response".
Definition NotFound : exn := Exn "NotFound" "received 404 HTTP response".
Definition RateLimited : exn := Exn "RedditAPIException" "RATELIMIT".

Definition has_id (id : string) (d : SubmissionData) : bool :=
  bool_decide (sd_id d = id).
Definition by_author (user : string) (d : SubmissionData) : bool :=
  bool_decide (sd_author d = Some user).

Definition find_post (id : string) (w : World) : option SubmissionData :=
  List.find (has_id id) (posts w).

Definition submit (subreddit title selftext : string) (url : string → string)
    (w : World) : World * result string :=
  if bool_decide (subreddit = "") then (w, Raise NotFound)
  else
    match supply w with
    | [] => (w, Raise RateLimited)
    | id :: ids =>
        let d := {| sd_id := id; sd_title := title; sd_selftext := selftext;
                    sd_score := 1; sd_url := url id;
                    sd_created_utc := clock w; sd_author := Some (me w);
                    sd_num_comments := 0 |} in
        (MkWorld (me w) (d :: posts w) ids (clock w + 1), Ok id)
    end.

Definition permalink (subreddit id : string) : string :=
  "https://www.reddit.com/r/" +:+ subreddit +:+ "/comments/" +:+ id +:+ "/".

Definition set_body (body : string) (d : SubmissionData) : SubmissionData :=
  {| sd_id := sd_id d; sd_title := sd_title d; sd_selftext := body;
     sd_score := sd_score d; sd_url := sd_url d;
     sd_created_utc := sd_created_utc d; sd_author := sd_author d;
     sd_num_comments := sd_num_comments d |}.

(** The post must exist and belong to the account. *)
Definition owned (id : string) (w : World) : result unit :=
  match find_post id w with
  | None => Raise NotFound
  | Some d => if by_author (me w) d then Ok tt else Raise Forbidden
  end.

Definition edit (id body : string) (w : World) : World * result unit :=
  match owned id w with
  | Raise e => (w, Raise e)
  | Ok _ =>
      (MkWorld (me w)
               (map (λ d, if has_id id d then set_body body d else d) (posts w))
               (supply w) (clock w), Ok tt)
  end.

Definition del (id : string) (w : World) : World * result unit :=
  match owned id w with
  | Raise e => (w, Raise e)
  | Ok _ =>
      (MkWorld (me w) (List.filter (λ d, negb (has_id id d)) (posts w))
               (supply w) (clock w), Ok tt)
  end.

Definition mem_remote (r : request) : World → World * result (response r) :=
  match r return World → World * result (response r) with
  | ReqSubmitSelftext sr title selftext =>
      submit sr title selftext (permalink sr)
  | ReqSubmitUrl sr title url => submit sr title "" (λ _, url)
  | ReqSubmitImage sr title image_path =>
      submit sr title "" (λ id, "https://i.redd.it/" +:+ id +:+ ".png")
  | ReqFetch id =>
      λ w, match find_post id w with
           | Some d => (w, Ok d)
           | None => (w, Raise NotFound)
           end
  | ReqEdit id body => edit id body
  | ReqDelete id => del id
  | ReqMe => λ w, (w, Ok (me w))
  | ReqSubmissionsNew user limit =>
      λ w, (w, Ok (take limit (List.filter (by_author user) (posts w))))
  end.

(** Times from the epoch to the end of year 9999 convert. *)
Definition mem_fromtimestamp (t : Z) : result Z :=
  if bool_decide (0 ≤ t < 253402300800) then Ok t
  else Raise (ValueError "year is out of range").

#[global] Instance mem_backend : Backend World := {
  remote := mem_remote;
  fromtimestamp := mem_fromtimestamp;
  datetime_str := pretty
}.

#[global] Instance mem_backend_limit : BackendLimit World.
Proof.
  constructor. intros user limit w w' ps Hr. simpl in Hr.
  injection Hr as _ <-. rewrite length_take. lia.
Qed.

(** The credentials of the examples. *)
Definition full_env : gmap string string :=
  <["REDDIT_CLIENT_ID" := "cid"]>
  (<["REDDIT_CLIENT_SECRET" := "secret"]>
  (<["REDDIT_USERNAME" := "alice"]>
  (<["REDDIT_PASSWORD" := "pw"]>
  (<["REDDIT_USER_AGENT" := "crud/1.0"]> ∅)))).

Definition alice_post : SubmissionData :=
  {| sd_id := "abc123"; sd_title := "Hello"; sd_selftext := "Hi there";
     sd_score := 1; sd_url := permalink "test" "abc123";
     sd_created_utc := 1700000000; sd_author := Some "alice";
     sd_num_comments := 0 |}.

Definition bob_post : SubmissionData :=
  {| sd_id := "zzz999"; sd_title := "Bob's"; sd_selftext := "mine";
     sd_score := 7; sd_url := permalink "test" "zzz999";
     sd_created_utc := 1690000000; sd_author := Some "bob";
     sd_num_comments := 3 |}.

Definition empty_world : World := MkWorld "alice" [] ["abc123"; "def456"] 1700000000.
Definition world1 : World := MkWorld "alice" [alice_post; bob_post] ["def456"] 1700000001.

Definition alice : RedditManager.RedditManager :=
  RedditManager.MkRedditManager (Some "cid") (Some "secret") (Some "alice")
    (Some "pw") (Some "crud/1.0")
    (RedditManager.MkReddit (Some "cid") (Some "secret") (Some "crud/1.0")
       (Some "alice") (Some "pw"))
    "RedditManager".

Definition state_of (w : World) : RedditManager.State World :=
  RedditManager.MkState alice (MkProc w [] []).
End MemReddit.

(** * Reasoning about computations *)

Section Keeps.
Context {S : Type}.

(** [c] keeps the invariant [I], whether it returns or raises. *)
Definition keeps {A} (I : S → Prop) (c : Comp S A) : Prop :=
  ∀ s, I s → I (c s).1.

(** [c] keeps [I] and every value it returns satisfies [R]. *)
Definition yields {A} (I : S → Prop) (c : Comp S A) (R : A → Prop) : Prop :=
  ∀ s, I s → I (c s).1 ∧ ∀ x, (c s).2 = Ok x → R x.

Lemma keeps_ret {A} I (a : A) : keeps I (ret a).
Proof. intros s Hs. exact Hs. Qed.

Lemma keeps_raise {A} I e : keeps I (raise (A:=A) e).
Proof. intros s Hs. exact Hs. Qed.

Lemma keeps_gets {A} I (f : S → A) : keeps I (gets f).
Proof. intros s Hs. exact Hs. Qed.

Lemma keeps_lift_result {A} I (r : result A) : keeps I (lift_result r).
Proof. intros s Hs. exact Hs. Qed.

Lemma keeps_modify I (f : S → S) : (∀ s, I s → I (f s)) → keeps I (modify f).
Proof. intros Hf s Hs. apply Hf, Hs. Qed.

Lemma yields_keeps {A} I (c : Comp S A) : keeps I c → yields I c (λ _, True).
Proof. intros Hc s Hs. split; [apply Hc, Hs | trivial]. Qed.

Lemma keeps_bind_yields {A B} I (c : Comp S A) (k : A → Comp S B) R :
  yields I c R → (∀ x, R x → keeps I (k x)) → keeps I (bind c k).
Proof.
  intros Hc Hk s Hs. destruct (Hc s Hs) as [Hi Hr]. unfold bind.
  destruct (c s) as [s' [x | e]]; simpl in *.
  - apply (Hk x); auto.
  - exact Hi.
Qed.

Lemma keeps_bind {A B} I (c : Comp S A) (k : A → Comp S B) :
  keeps I c → (∀ x, keeps I (k x)) → keeps I (bind c k).
Proof.
  intros Hc Hk. apply keeps_bind_yields with (R := λ _, True).
  - apply yields_keeps, Hc.
  - intros x _. apply Hk.
Qed.

Lemma keeps_bind_ret {A B} I (a : A) (k : A → Comp S B) :
  keeps I (k a) → keeps I (bind (ret a) k).
Proof. intros Hk s Hs. apply Hk, Hs. Qed.

Lemma keeps_bind_raise {A B} I e (k : A → Comp S B) :
  keeps I (bind (raise e) k).
Proof. intros s Hs. exact Hs. Qed.

Lemma keeps_try_except {A} I (c : Comp S A) (h : exn → Comp S A) :
  keeps I c → (∀ e, keeps I (h e)) → keeps I (try_except c h).
Proof.
  intros Hc Hh s Hs. specialize (Hc s Hs). unfold try_except.
  destruct (c s) as [s' [x | e]]; simpl in *.
  - exact Hc.
  - apply Hh, Hc.
Qed.

Lemma keeps_if {A} I (b : bool) (c1 c2 : Comp S A) :
  keeps I c1 → keeps I c2 → keeps I (if b then c1 else c2).
Proof. destruct b; auto. Qed.
End Keeps.

Create HintDb keeps discriminated.
#[global] Hint Resolve keeps_ret keeps_raise keeps_gets keeps_lift_result
  keeps_bind keeps_try_except keeps_if : keeps.

(** * Properties of the facade *)

Section FacadeFacts.
Context {World : Type} `{Backend World}.
Import RedditManager.

Abbreviation State := (State World).

Definition world (s : State) : World := p_world (st_proc s).
Definition calls (s : State) : list request := p_calls (st_proc s).
Definition log (s : State) : list log_record := p_log (st_proc s).

(** The state after request [r] was sent and left the service in [w']. *)
Definition sent (r : request) (w' : World) (s : State) : State :=
  MkState (st_self s) (MkProc w' (calls s ++ [r]) (log s)).

(** The state after the facade's logger emitted one record. *)
Definition logged (lvl : level) (msg : string) (s : State) : State :=
  MkState (st_self s)
          (MkProc (world s) (calls s) (log s ++ [(logger (st_self s), lvl, msg)])).

(** What [create_post] does once the submission request [r] has been
    answered with [out]. *)
Definition create_outcome (r : request) (out : World * result string)
    (s : State) : State * result (option string) :=
  match out with
  | (w', Ok id) =>
      (logged INFO ("Created post: " +:+ id) (sent r w' s), Ok (Some id))
  | (w', Raise e) =>
      (logged ERROR ("Error creating post: " +:+ exn_msg e) (sent r w' s),
       Ok None)
  end.

Lemma create_post_text sr title content (s : State) :
  create_post sr title content (Some "text") s =
  create_outcome (ReqSubmitSelftext sr title content)
                 (remote (ReqSubmitSelftext sr title content) (world s)) s.
Proof.
  unfold create_post, submit_selftext, create_outcome, sent, logged, world, calls, log.
  unfold try_except, bind, in_proc, perform. simpl.
  destruct (remote _ (p_world (st_proc s))) as [w' [id | e]]; reflexivity.
Qed.

Lemma create_post_link sr title content (s : State) :
  create_post sr title content (Some "link") s =
  create_outcome (ReqSubmitUrl sr title content)
                 (remote (ReqSubmitUrl sr title content) (world s)) s.
Proof.
  unfold create_post, submit_url, create_outcome, sent, logged, world, calls, log.
  unfold try_except, bind, in_proc, perform. simpl.
  destruct (remote _ (p_world (st_proc s))) as [w' [id | e]]; reflexivity.
Qed.

Lemma create_post_image sr title content (s : State) :
  create_post sr title content (Some "image") s =
  create_outcome (ReqSubmitImage sr title content)
                 (remote (ReqSubmitImage sr title content) (world s)) s.
Proof.
  unfold create_post, submit_image, create_outcome, sent, logged, world, calls, log.
  unfold try_except, bind, in_proc, perform. simpl.
  destruct (remote _ (p_world (st_proc s))) as [w' [id | e]]; reflexivity.
Qed.

Lemma create_post_other sr title content kind (s : State) :
  kind ≠ "text" → kind ≠ "link" → kind ≠ "image" →
  create_post sr title content (Some kind) s =
  (logged ERROR ("Error creating post: " +:+ invalid_post_type) s, Ok None).
Proof.
  intros Ht Hl Hi.
  unfold create_post, try_except, bind, self_reddit, gets. simpl.
  rewrite !bool_decide_eq_false_2 by assumption. reflexivity.
Qed.
(** The dictionary that [read_post] builds from the handle's id, the
    fetched submission and the converted creation time. *)
Definition post_record (id : string) (d : SubmissionData) (created : Z)
  : gmap string pyval :=
  <["id" := PStr id]>
  (<["title" := PStr (sd_title d)]>
  (<["content" := PStr (sd_selftext d)]>
  (<["score" := PInt (sd_score d)]>
  (<["url" := PStr (sd_url d)]>
  (<["created_utc" := PDatetime created]>
  (<["author" := PStr (str_author (sd_author d))]>
  (<["num_comments" := PInt (sd_num_comments d)]> ∅))))))).

Definition post_keys : gset string :=
  list_to_set ["id"; "title"; "content"; "score"; "url"; "created_utc";
               "author"; "num_comments"].

(** What [read_post] does once the fetch has been answered with [out]. *)
Definition read_outcome (id : string) (out : World * result SubmissionData)
    (s : State) : State * result (option (gmap string pyval)) :=
  match out with
  | (w', Raise e) =>
      (logged ERROR ("Error reading post: " +:+ exn_msg e) (sent (ReqFetch id) w' s),
       Ok None)
  | (w', Ok d) =>
      match fromtimestamp (sd_created_utc d) with
      | Ok t => (sent (ReqFetch id) w' s, Ok (Some (post_record id d t)))
      | Raise e =>
          (logged ERROR ("Error reading post: " +:+ exn_msg e)
                  (sent (ReqFetch id) w' s), Ok None)
      end
  end.

Lemma read_post_run id (s : State) :
  read_post id s = read_outcome id (remote (ReqFetch id) (world s)) s.
Proof.
  unfold read_post, read_outcome, post_record, sent, logged, world, calls, log.
  unfold try_except, bind, in_proc, perform, lift_result. simpl.
  destruct (remote _ (p_world (st_proc s))) as [w' [d | e]]; [|reflexivity].
  simpl. destruct (fromtimestamp (sd_created_utc d)); reflexivity.
Qed.

Lemma post_record_dom id d t : dom (post_record id d t) = post_keys.
Proof.
  unfold post_record, post_keys. rewrite !dom_insert_L, dom_empty_L.
  simpl. set_solver.
Qed.

Lemma post_record_no_subreddit id d t : post_record id d t !! "subreddit" = None.
Proof. apply not_elem_of_dom. rewrite post_record_dom. by vm_compute. Qed.

(** What [update_post] and [delete_post] do once their request [r] has
    been answered with [out]. *)
Definition flag_outcome (r : request) (done_msg fail_prefix : string)
    (out : World * result unit) (s : State) : State * result bool :=
  match out with
  | (w', Ok _) => (logged INFO done_msg (sent r w' s), Ok true)
  | (w', Raise e) =>
      (logged ERROR (fail_prefix +:+ exn_msg e) (sent r w' s), Ok false)
  end.

Lemma update_post_run id body (s : State) :
  update_post id body s =
  flag_outcome (ReqEdit id body) ("Updated post: " +:+ id) "Error updating post: "
               (remote (ReqEdit id body) (world s)) s.
Proof.
  unfold update_post, flag_outcome, sent, logged, world, calls, log.
  unfold try_except, bind, in_proc, perform. simpl.
  destruct (remote _ (p_world (st_proc s))) as [w' [[] | e]]; reflexivity.
Qed.

Lemma delete_post_run id (s : State) :
  delete_post id s =
  flag_outcome (ReqDelete id) ("Deleted post: " +:+ id) "Error deleting post: "
               (remote (ReqDelete id) (world s)) s.
Proof.
  unfold delete_post, flag_outcome, sent, logged, world, calls, log.
  unfold try_except, bind, in_proc, perform. simpl.
  destruct (remote _ (p_world (st_proc s))) as [w' [[] | e]]; reflexivity.
Qed.

(** [r] raised nothing. *)
Definition completed {A} (r : result A) : bool :=
  match r with Ok _ => true | Raise _ => false end.

Definition recent_error : string := "Error fetching user's recent posts: ".

(** What [get_recent_posts] does, request by request. *)
Definition recent_outcome (limit : nat) (s : State)
  : State * result (list (gmap string string)) :=
  match remote ReqMe (world s) with
  | (w1, Raise e) =>
      (logged ERROR (recent_error +:+ exn_msg e) (sent ReqMe w1 s), Ok [])
  | (w1, Ok user) =>
      let s1 := sent ReqMe w1 s in
      match remote (ReqSubmissionsNew user limit) w1 with
      | (w2, Raise e) =>
          (logged ERROR (recent_error +:+ exn_msg e)
                  (sent (ReqSubmissionsNew user limit) w2 s1), Ok [])
      | (w2, Ok posts) =>
          (sent (ReqSubmissionsNew user limit) w2 s1, Ok (map post_entry posts))
      end
  end.

Lemma get_recent_posts_run limit (s : State) :
  get_recent_posts (Some limit) s = recent_outcome limit s.
Proof.
  unfold get_recent_posts, recent_outcome, recent_error, sent, logged, world, calls, log.
  unfold try_except, bind, in_proc, perform. simpl.
  destruct (remote ReqMe (p_world (st_proc s))) as [w1 [user | e]]; [|reflexivity].
  simpl.
  destruct (remote (ReqSubmissionsNew user limit) w1) as [w2 [posts | e]];
    reflexivity.
Qed.

(** ** The facade object is never assigned to *)

Definition self_is (m : RedditManager) (s : State) : Prop := st_self s = m.

Lemma keeps_self_in_proc {A} m (c : Comp (Proc World) A) :
  keeps (self_is m) (in_proc c).
Proof.
  intros s Hs. unfold in_proc. destruct (c (st_proc s)) as [p' r]. exact Hs.
Qed.

Lemma keeps_self_logger_info m msg : keeps (self_is m) (logger_info msg).
Proof. intros s Hs. exact Hs. Qed.

Lemma keeps_self_logger_error m msg : keeps (self_is m) (logger_error msg).
Proof. intros s Hs. exact Hs. Qed.

Local Hint Resolve keeps_self_in_proc keeps_self_logger_info
  keeps_self_logger_error : keeps.

Ltac keeps_self :=
  repeat first
    [ progress auto with keeps
    | apply keeps_bind; [| intros ?]
    | apply keeps_try_except; [| intros ?]
    | apply keeps_if ].

Lemma keeps_self_create_post m sr title content kind :
  keeps (self_is m) (create_post sr title content kind).
Proof.
  unfold create_post, self_reddit, submit_selftext, submit_url, submit_image.
  keeps_self.
Qed.

Lemma keeps_self_read_post m id : keeps (self_is m) (read_post id).
Proof. unfold read_post, self_reddit. keeps_self. Qed.

Lemma keeps_self_update_post m id body : keeps (self_is m) (update_post id body).
Proof. unfold update_post, self_reddit. keeps_self. Qed.

Lemma keeps_self_delete_post m id : keeps (self_is m) (delete_post id).
Proof. unfold delete_post, self_reddit. keeps_self. Qed.

Lemma keeps_self_get_recent_posts m limit :
  keeps (self_is m) (get_recent_posts limit).
Proof. unfold get_recent_posts, self_reddit. keeps_self. Qed.

(** One call of the facade, and a sequence of them. *)
Inductive call :=
  | CallCreate (subreddit_name title content : string) (post_type : option string)
  | CallRead (post_id : string)
  | CallUpdate (post_id new_content : string)
  | CallDelete (post_id : string)
  | CallRecent (limit : option nat).

Definition invoke (c : call) (s : State) : State :=
  match c with
  | CallCreate sr title content kind => (create_post sr title content kind s).1
  | CallRead id => (read_post id s).1
  | CallUpdate id body => (update_post id body s).1
  | CallDelete id => (delete_post id s).1
  | CallRecent limit => (get_recent_posts limit s).1
  end.

Definition invoke_all (cs : list call) (s : State) : State :=
  fold_left (λ s c, invoke c s) cs s.

Lemma invoke_self c (s : State) : st_self (invoke c s) = st_self s.
Proof.
  destruct c; simpl.
  - by apply (keeps_self_create_post (st_self s)).
  - by apply (keeps_self_read_post (st_self s)).
  - by apply (keeps_self_update_post (st_self s)).
  - by apply (keeps_self_delete_post (st_self s)).
  - by apply (keeps_self_get_recent_posts (st_self s)).
Qed.
End FacadeFacts.

(** * Properties of the script *)

Section ScriptFacts.
Context {World : Type} `{Backend World}.
Import RedditManager App.

Abbreviation AppState := (AppState World).

(** Invariants of the page: [show] is the only step that changes it. *)
Definition page_stable (I : AppState → Prop) : Prop :=
  ∀ a p m, I a → I (MkApp m p (a_ui a)).

Lemma keeps_call_manager {A} I (method : Comp (State World) A) :
  page_stable I → keeps I (call_manager method).
Proof.
  intros HI a Ha. unfold call_manager. destruct (reddit_manager a) as [self|].
  - destruct (method _) as [s' r]. simpl. apply HI, Ha.
  - exact Ha.
Qed.

Lemma keeps_construct I env : page_stable I → keeps I (construct env).
Proof.
  intros HI a Ha. unfold construct.
  destruct (__init__ env (a_proc a)) as [p' [m | e]]; simpl; apply HI, Ha.
Qed.

(** Every widget on the page satisfies [Q]. *)
Definition page_all (Q : widget → Prop) (a : AppState) : Prop :=
  Forall Q (a_ui a).

Lemma page_all_stable Q : page_stable (page_all Q).
Proof. intros a p m Ha. exact Ha. Qed.

Lemma keeps_page_all_show Q w : Q w → keeps (page_all Q) (show w).
Proof.
  intros Hw a Ha. unfold page_all in *. simpl.
  apply Forall_app. split; [exact Ha | by constructor].
Qed.

(** A link of the update form that names the subreddit [unknown]. *)
Definition updated_link (post_id : string) : string :=
  "[View Updated Post on Reddit](" +:+ post_url "unknown" post_id +:+ ")".

Definition link_unknown (w : widget) : Prop :=
  ∀ body, w = st_markdown body → ∃ post_id, body = updated_link post_id.

Lemma read_post_no_subreddit id (s : State World) d :
  (read_post id s).2 = Ok (Some d) → d !! "subreddit" = None.
Proof.
  rewrite read_post_run. unfold read_outcome.
  destruct (remote (ReqFetch id) (world s)) as [w' [sd | e]]; simpl.
  - destruct (fromtimestamp (sd_created_utc sd)); simpl; [|discriminate].
    intros [= <-]. apply post_record_no_subreddit.
  - discriminate.
Qed.

Lemma yields_call_read_post I id :
  page_stable I →
  yields I (call_manager (read_post id))
         (λ r, ∀ d, r = Some d → d !! "subreddit" = None).
Proof.
  intros HI a Ha. split; [by apply keeps_call_manager|].
  unfold call_manager. destruct (reddit_manager a) as [self|]; [|discriminate].
  pose proof (read_post_no_subreddit id (MkState self (a_proc a))) as Hr.
  destruct (read_post id _) as [s' r]. simpl in *.
  intros x [= ->] d ->. by apply Hr.
Qed.

Ltac keeps_page :=
  repeat first
    [ progress auto using keeps_call_manager, keeps_construct, page_all_stable with keeps
    | solve [apply keeps_page_all_show; intros ? [=]]
    | apply keeps_bind_raise
    | apply keeps_bind; [| intros ?]
    | apply keeps_try_except; [| intros ?]
    | match goal with
      | |- keeps _ (match ?x with _ => _ end) => destruct x
      end ].

Lemma keeps_links_dropdown i :
  keeps (page_all link_unknown) (get_recent_posts_dropdown i).
Proof.
  unfold get_recent_posts_dropdown, selectbox. keeps_page.
Qed.

Lemma keeps_links_update_branch inp :
  keeps (page_all link_unknown) (update_branch inp).
Proof.
  unfold update_branch.
  apply keeps_bind; [keeps_page | intros _].
  apply keeps_bind; [apply keeps_links_dropdown | intros post_id].
  apply keeps_bind; [unfold text_area; keeps_page | intros new_content].
  apply keeps_bind; [unfold and_button, button; keeps_page | intros go].
  destruct go; [| keeps_page].
  apply keeps_bind; [keeps_page | intros ok].
  destruct ok; [| keeps_page].
  apply keeps_bind; [keeps_page | intros _].
  eapply keeps_bind_yields;
    [apply yields_call_read_post, page_all_stable | intros post_data Hd].
  destruct post_data as [d|]; [| keeps_page].
  rewrite (Hd d eq_refl). apply keeps_bind_ret, keeps_page_all_show.
  intros body [= <-]. by exists (default "" post_id).
Qed.

Lemma keeps_links_dispatch platform inp :
  keeps (page_all link_unknown) (dispatch platform "Update Post" inp).
Proof.
  unfold dispatch. destruct (bool_decide (platform = "Reddit")).
  - apply keeps_links_update_branch.
  - keeps_page.
Qed.

Lemma keeps_links_script env inp :
  choose operations (in_operation inp) = "Update Post" →
  keeps (page_all link_unknown) (script env inp).
Proof.
  intros Hop. unfold script, sidebar_selectbox.
  apply keeps_bind; [keeps_page | intros _].
  apply keeps_bind; [keeps_page | intros platform].
  apply keeps_bind_yields with (R := λ o, o = "Update Post").
  - intros a Ha. split.
    + revert a Ha. fold (keeps (page_all link_unknown)
        (show (st_sidebar_selectbox "Select Operation" operations) >>
         ret (choose operations (in_operation inp)))). keeps_page.
    + simpl. by intros x [= <-].
  - intros o ->. apply keeps_links_dispatch.
Qed.
(** ** A run whose constructor raised *)

(** No object is bound to [reddit_manager], the rest of the process is
    [p], and the page starts with the widgets [pre]. *)
Definition unbound (p : Proc World) (pre : list widget) (a : AppState) : Prop :=
  reddit_manager a = None ∧ a_proc a = p ∧ ∃ rest, a_ui a = (pre ++ rest)%list.

Lemma keeps_unbound_show p pre w : keeps (unbound p pre) (show w).
Proof.
  intros a (Hm & Hp & rest & Hui). repeat split; try assumption.
  exists (rest ++ [w])%list. simpl. rewrite Hui. by rewrite <- app_assoc.
Qed.

Lemma keeps_unbound_call_manager {A} p pre (method : Comp (State World) A) :
  keeps (unbound p pre) (call_manager method).
Proof.
  intros a Ha. unfold call_manager. destruct Ha as (Hm & Hp & Hui).
  rewrite Hm. simpl. by repeat split.
Qed.

Ltac keeps_unbound :=
  repeat first
    [ progress auto using keeps_unbound_show, keeps_unbound_call_manager with keeps
    | apply keeps_bind; [| intros ?]
    | match goal with
      | |- keeps _ (match ?x with _ => _ end) => destruct x
      end ].

Lemma keeps_unbound_dropdown p pre i :
  keeps (unbound p pre) (get_recent_posts_dropdown i).
Proof. unfold get_recent_posts_dropdown, selectbox. keeps_unbound. Qed.

Lemma keeps_unbound_dispatch p pre platform operation inp :
  keeps (unbound p pre) (dispatch platform operation inp).
Proof.
  pose proof (keeps_unbound_dropdown p pre) as Hd.
  unfold dispatch, create_branch, read_branch, update_branch, delete_branch.
  unfold text_input, text_area, selectbox, button, and_button.
  repeat match goal with
         | |- keeps _ (if ?b then _ else _) => destruct b
         end;
    keeps_unbound.
Qed.

Lemma init_missing env (p : Proc World) :
  missing_vars env ≠ [] →
  __init__ env p = (p, Raise (ValueError (missing_message (missing_vars env)))).
Proof.
  intros Hne. unfold __init__. destruct (missing_vars env); [done | reflexivity].
Qed.

Lemma init_complete env (p : Proc World) :
  missing_vars env = [] →
  ∃ m, __init__ env p =
       (MkProc (p_world p) (p_calls p)
               (p_log p ++ [(module_name, INFO, "Reddit Manager initialized successfully")]),
        Ok m)
       ∧ client_id m = getenv env "REDDIT_CLIENT_ID"
       ∧ client_secret m = getenv env "REDDIT_CLIENT_SECRET"
       ∧ username m = getenv env "REDDIT_USERNAME"
       ∧ password m = getenv env "REDDIT_PASSWORD"
       ∧ user_agent m = getenv env "REDDIT_USER_AGENT".
Proof.
  intros He. unfold __init__. rewrite He. eexists. split; [reflexivity|].
  by repeat split.
Qed.

(** The page as it stands once both sidebar selectors are drawn after
    a failed construction. *)
Definition failed_page (env : gmap string string) : list widget :=
  [init_failed (ValueError (missing_message (missing_vars env)));
   st_sidebar_selectbox "Select Social Media Platform" platforms;
   st_sidebar_selectbox "Select Operation" operations].

Lemma run_missing env inp (w : World) :
  missing_vars env ≠ [] →
  run env inp w =
  dispatch (choose platforms (in_platform inp))
           (choose operations (in_operation inp)) inp
           (MkApp None (MkProc w [] []) (failed_page env)).
Proof.
  intros Hne. unfold run, script, start, construct, sidebar_selectbox.
  unfold bind at 1. unfold try_except. simpl.
  rewrite (init_missing env _ Hne). reflexivity.
Qed.
End ScriptFacts.

(** * The claims of the specification *)

Section Claims.
Context {World : Type} `{Backend World}.
Import RedditManager App.

(** A required variable counts as missing when it is unset or set to
    the empty string. *)
Definition is_missing (env : gmap string string) (var : string) : Prop :=
  getenv env var = None ∨ getenv env var = Some "".


Lemma truthy_false v : truthy v = false ↔ v = None ∨ v = Some "".
Proof.
  destruct v as [s|]; simpl.
  - rewrite negb_false_iff, bool_decide_eq_true. split.
    + intros ->. by right.
    + intros [? | [= ->]]; done.
  - split; [by left | done].
Qed.

Lemma elem_of_missing_vars env var :
  var ∈ missing_vars env ↔ var ∈ required_vars ∧ is_missing env var.
Proof.
  unfold missing_vars, is_missing.
  rewrite !list_elem_of_In, List.filter_In, negb_true_iff, truthy_false.
  reflexivity.
Qed.

Lemma missing_vars_nil env :
  missing_vars env = [] ↔ ¬ ∃ var, var ∈ required_vars ∧ is_missing env var.
Proof.
  split.
  - intros He (var & Hv). apply elem_of_missing_vars in Hv.
    rewrite He in Hv. by apply elem_of_nil in Hv.
  - intros Hn. destruct (missing_vars env) as [|var l] eqn:He; [done|].
    exfalso. apply Hn. exists var. apply elem_of_missing_vars.
    rewrite He. by left.
Qed.




(** C10. Leaving [post_type] out is the same as passing ['text']. *)
Theorem C10_default_kind_is_text sr title content (s : State World) :
  create_post sr title content None s =
  create_post sr title content (Some "text") s.
Proof. reflexivity. Qed.



(** The two keys of an entry of the listing. *)
Lemma post_entry_shape d :
  post_entry d !! "title" = Some (sd_title d) ∧
  post_entry d !! "id" = Some (sd_id d) ∧
  dom (post_entry d) = ({["title"; "id"]} : gset string).
Proof.
  unfold post_entry. split; [|split].
  - by rewrite lookup_insert_eq.
  - by rewrite lookup_insert_ne, lookup_insert_eq.
  - rewrite !dom_insert_L, dom_empty_L. set_solver.
Qed.


(** C9. No call of the facade assigns to the facade object: after any
    sequence of the five operations its fields are those it had. *)
Theorem C9_facade_never_mutated (cs : list call) (s : State World) :
  st_self (invoke_all cs s) = st_self s.
Proof.
  revert s. induction cs as [|c cs IH]; intros s; [reflexivity|].
  unfold invoke_all in *. simpl. rewrite IH. apply invoke_self.
Qed.

(** C8. A dictionary returned by [read_post] has no subreddit key, so
    every link that a run of the Update Post form puts on the page
    names the subreddit [unknown]. *)
Theorem C8_update_link_names_unknown env inp (w : World) :
  (∀ id (s : State World) d,
     (read_post id s).2 = Ok (Some d) → d !! "subreddit" = None) ∧
  (choose operations (in_operation inp) = "Update Post" →
   ∀ body, st_markdown body ∈ a_ui (run env inp w).1 →
     ∃ post_id,
       body = "[View Updated Post on Reddit](" +:+ post_url "unknown" post_id +:+ ")").
Proof.
  split; [apply read_post_no_subreddit|].
  intros Hop body Hin.
  assert (Hall : page_all link_unknown (run env inp w).1).
  { apply keeps_links_script; [exact Hop | unfold page_all; simpl; constructor]. }
  unfold page_all in Hall. rewrite Forall_forall in Hall.
  destruct (Hall _ Hin body eq_refl) as [post_id ->]. by exists post_id.
Qed.

(** C1, as the code behaves.  When a required variable is missing the
    constructor's error is shown, and the run goes on: both sidebar
    selectors, the operation selector among them, are drawn right after
    it.  The name [reddit_manager] stays unbound, so no request is sent
    and nothing is logged in the rest of the run. *)
Theorem C1_failed_construction_still_serves_ui env inp (w : World) :
  missing_vars env ≠ [] →
  let a := (run env inp w).1 in
  (∃ rest, a_ui a = (failed_page env ++ rest)%list) ∧
  st_sidebar_selectbox "Select Operation" operations ∈ a_ui a ∧
  reddit_manager a = None ∧
  a_proc a = MkProc w [] [].
Proof.
  intros Hne. simpl. rewrite (run_missing env inp w Hne).
  pose proof (keeps_unbound_dispatch (MkProc w [] []) (failed_page env)
                (choose platforms (in_platform inp))
                (choose operations (in_operation inp)) inp
                (MkApp None (MkProc w [] []) (failed_page env))) as Hk.
  destruct Hk as (Hm & Hp & rest & Hui).
  { split; [reflexivity | split; [reflexivity |]].
    exists []. reflexivity. }
  repeat split; try assumption.
  - by exists rest.
  - rewrite Hui. apply elem_of_app. left. unfold failed_page. set_solver.
Qed.
End Claims.

(** * Runs on the in-memory service *)

Section Runs.
Import RedditManager App MemReddit.

Definition content_of (r : option (gmap string pyval)) : option pyval :=
  r ≫= (λ d, d !! "content").

(** The scenario of the specification: create, read, update, read,
    delete, read. *)
Definition scenario
  : Comp (State World)
         (option string * option pyval * bool * option pyval * bool
          * option (gmap string pyval)) :=
  id <- create_post "test" "Hello" "Hi there" (Some "text");;
  r1 <- read_post "abc123";;
  u <- update_post "abc123" "Edited";;
  r2 <- read_post "abc123";;
  d <- delete_post "abc123";;
  r3 <- read_post "abc123";;
  ret (id, content_of r1, u, content_of r2, d, r3).

Example scenario_run :
  (scenario (state_of empty_world)).2 =
  Ok (Some "abc123", Some (PStr "Hi there"), true, Some (PStr "Edited"), true, None).
Proof. vm_compute. reflexivity. Qed.

(** Another account's post, and a post that does not exist. *)
Example update_not_owned :
  (update_post "zzz999" "x" (state_of world1)).2 = Ok false ∧
  (delete_post "zzz999" (state_of world1)).2 = Ok false ∧
  posts (world (delete_post "zzz999" (state_of world1)).1) = posts world1.
Proof. by vm_compute. Qed.

Example update_not_found :
  (update_post "nope" "x" (state_of world1)).2 = Ok false ∧
  (delete_post "nope" (state_of world1)).2 = Ok false ∧
  (read_post "nope" (state_of world1)).2 = Ok None.
Proof. by vm_compute. Qed.

Example recent_posts_of_alice :
  (get_recent_posts None (state_of world1)).2 = Ok [post_entry alice_post] ∧
  (get_recent_posts (Some 0%nat) (state_of world1)).2 = Ok [].
Proof. by vm_compute. Qed.

Example two_missing :
  (__init__ (delete "REDDIT_USERNAME" (<["REDDIT_PASSWORD" := ""]> full_env))
            (MkProc empty_world [] [])).2 =
  Raise (ValueError
    "Missing required environment variables: REDDIT_USERNAME, REDDIT_PASSWORD").
Proof. by vm_compute. Qed.

Example construction_succeeds :
  (__init__ full_env (MkProc empty_world [] [])).2 = Ok alice.
Proof. by vm_compute. Qed.

Definition no_input (operation : nat) (pressed : bool) : Inputs :=
  MkInputs 0 operation "" "" "" 0 0 "Edited" pressed.

(** With no credentials, the Create Post form is drawn in full after
    the error, and the Read Post form stops on the unbound name. *)
Example create_form_after_failed_construction :
  run ∅ (no_input 0 false) world1 =
  (MkApp None (MkProc world1 [] [])
     [st_error "Failed to initialize RedditManager: Missing required environment variables: REDDIT_CLIENT_ID, REDDIT_CLIENT_SECRET, REDDIT_USERNAME, REDDIT_PASSWORD, REDDIT_USER_AGENT";
      st_sidebar_selectbox "Select Social Media Platform" platforms;
      st_sidebar_selectbox "Select Operation" operations;
      st_header "Create a New Reddit Post";
      st_text_input "Subreddit Name (without 'r/')";
      st_text_input "Post Title";
      st_text_area "Post Content";
      st_selectbox "Post Type" post_types;
      st_button "Create Post"],
   Ok tt).
Proof. by vm_compute. Qed.

Example read_form_after_failed_construction :
  (run ∅ (no_input 1 false) world1).2 = Raise (NameError "reddit_manager").
Proof. by vm_compute. Qed.

Example update_form_page :
  a_ui (run full_env (no_input 2 true) world1).1 =
  [st_sidebar_selectbox "Select Social Media Platform" platforms;
   st_sidebar_selectbox "Select Operation" operations;
   st_header "Update an Existing Reddit Post";
   st_selectbox "Select a Post" ["Hello"];
   st_text_area "New Content";
   st_button "Update Post";
   st_success "Post updated successfully!";
   st_markdown "[View Updated Post on Reddit](https://www.reddit.com/r/unknown/comments/abc123/)"].
Proof. by vm_compute. Qed.
End Runs.

(** ** Instances of the conditional claims *)



Lemma C1_failed_construction_witness :
  let a := (App.run ∅ (no_input 0 false) MemReddit.world1).1 in
  (∃ rest, App.a_ui a = (failed_page ∅ ++ rest)%list) ∧
  App.st_sidebar_selectbox "Select Operation" App.operations ∈ App.a_ui a ∧
  App.reddit_manager a = None ∧
  App.a_proc a = MkProc MemReddit.world1 [] [].
Proof.
  apply (C1_failed_construction_still_serves_ui ∅ (no_input 0 false)
           MemReddit.world1).
  vm_compute. discriminate.
Defined.

Lemma C8_update_link_witness :
  ∃ post_id,
    "[View Updated Post on Reddit](https://www.reddit.com/r/unknown/comments/abc123/)"
    = "[View Updated Post on Reddit](" +:+ App.post_url "unknown" post_id +:+ ")".
Proof.
  apply (proj2 (C8_update_link_names_unknown MemReddit.full_env (no_input 2 true)
                  MemReddit.world1)).
  - reflexivity.
  - apply list_elem_of_In. vm_compute. do 7 right. left. reflexivity.
Defined.

(** * Further properties of the facade *)

#[local] Set Warnings "-clear-no-such-hyp".

Section FacadeMore.
Context {World : Type} `{Backend World}.
Import RedditManager.

(** A credential that is set and not empty. *)
Definition present (v : option string) : Prop := ∃ s, v = Some s ∧ s ≠ "".

Lemma truthy_present v : truthy v = true ↔ present v.
Proof.
  unfold present. destruct v as [s|]; simpl.
  - rewrite negb_true_iff, bool_decide_eq_false. split.
    + intros Hs. by exists s.
    + by intros (s' & [= <-] & Hs).
  - split; [done | by intros (s & ? & _)].
Qed.

Lemma required_present env var :
  missing_vars env = [] → var ∈ required_vars → present (getenv env var).
Proof.
  intros He Hv. apply truthy_present.
  destruct (truthy (getenv env var)) eqn:Ht; [done|].
  exfalso. apply missing_vars_nil in He. apply He. exists var.
  split; [exact Hv | by apply truthy_false].
Qed.

(** [__init__], when it returns: the five attributes are the values of
    the five variables, each of them set and not empty, the session is
    configured with the same five values, nothing was sent to the remote
    service, and one line was logged. *)
Theorem init_stores_credentials env (p p' : Proc World) m :
  __init__ env p = (p', Ok m) →
  (client_id m = getenv env "REDDIT_CLIENT_ID" ∧ present (client_id m)) ∧
  (client_secret m = getenv env "REDDIT_CLIENT_SECRET" ∧ present (client_secret m)) ∧
  (username m = getenv env "REDDIT_USERNAME" ∧ present (username m)) ∧
  (password m = getenv env "REDDIT_PASSWORD" ∧ present (password m)) ∧
  (user_agent m = getenv env "REDDIT_USER_AGENT" ∧ present (user_agent m)) ∧
  reddit m = MkReddit (client_id m) (client_secret m) (user_agent m)
                      (username m) (password m) ∧
  p_world p' = p_world p ∧
  p_calls p' = p_calls p ∧
  p_log p' =
    (p_log p ++ [("RedditManager", INFO, "Reddit Manager initialized successfully")])%list.
Proof.
  intros Hrun.
  assert (He : missing_vars env = []).
  { destruct (missing_vars env) as [|v l] eqn:He; [done|].
    rewrite init_missing in Hrun by (by rewrite He). discriminate. }
  unfold __init__ in Hrun. rewrite He in Hrun. injection Hrun as <- <-. simpl.
  pose proof (required_present env) as Hp.
  repeat split; try reflexivity; apply Hp; try exact He;
    unfold required_vars; set_solver.
Qed.

(** The log gained exactly one record of level [lvl]. *)
Definition logged_one (lvl : level) (s s' : State World) : Prop :=
  ∃ msg, log s' = (log s ++ [(logger (st_self s), lvl, msg)])%list.

Lemma logged_one_logged lvl msg (s0 s : State World) :
  log s = log s0 → st_self s = st_self s0 → logged_one lvl s0 (logged lvl msg s).
Proof.
  intros Hl Hs. exists msg. unfold logged, log in *. simpl. by rewrite Hl, Hs.
Qed.

Lemma not_text_link_image_dec (kind : string) :
  kind = "text" ∨ kind = "link" ∨ kind = "image" ∨
  (kind ≠ "text" ∧ kind ≠ "link" ∧ kind ≠ "image").
Proof.
  destruct (decide (kind = "text")); [by left|].
  destruct (decide (kind = "link")); [by right; left|].
  destruct (decide (kind = "image")); [by right; right; left|].
  by right; right; right.
Qed.

Lemma create_outcome_logs r out (s : State World) :
  ((create_outcome r out s).2 = Ok None ∧
   logged_one ERROR s (create_outcome r out s).1) ∨
  (∃ id, (create_outcome r out s).2 = Ok (Some id) ∧
         logged_one INFO s (create_outcome r out s).1).
Proof.
  destruct out as [w' [id | e]]; simpl.
  - right. exists id. split; [done|]. by apply logged_one_logged.
  - left. split; [done|]. by apply logged_one_logged.
Qed.

(** No failure is silent and no success logs an error.  Each of the
    four single-post operations either returns its failure signal
    ([None] or [False]) and logs exactly one ERROR record, or returns a
    result and logs no ERROR record: [create_post], [update_post] and
    [delete_post] log one INFO record, [read_post] logs nothing. *)
Theorem failure_iff_error_logged sr title content kind id body (s : State World) :
  (let out := create_post sr title content kind s in
   (out.2 = Ok None ∧ logged_one ERROR s out.1) ∨
   (∃ new_id, out.2 = Ok (Some new_id) ∧ logged_one INFO s out.1)) ∧
  (let out := read_post id s in
   (out.2 = Ok None ∧ logged_one ERROR s out.1) ∨
   (∃ d, out.2 = Ok (Some d) ∧ log out.1 = log s)) ∧
  (let out := update_post id body s in
   (out.2 = Ok false ∧ logged_one ERROR s out.1) ∨
   (out.2 = Ok true ∧ logged_one INFO s out.1)) ∧
  (let out := delete_post id s in
   (out.2 = Ok false ∧ logged_one ERROR s out.1) ∨
   (out.2 = Ok true ∧ logged_one INFO s out.1)).
Proof.
  split; [|split; [|split]]; cbv zeta.
  - assert (Hk : ∃ k, create_post sr title content kind s
                      = create_post sr title content (Some k) s).
    { destruct kind as [k|]; [by exists k | by exists "text"]. }
    destruct Hk as [k ->].
    destruct (not_text_link_image_dec k) as [-> | [-> | [-> | (Ht & Hl & Hi)]]].
    + rewrite create_post_text. apply create_outcome_logs.
    + rewrite create_post_link. apply create_outcome_logs.
    + rewrite create_post_image. apply create_outcome_logs.
    + rewrite (create_post_other _ _ _ _ _ Ht Hl Hi). left.
      split; [done|]. by apply logged_one_logged.
  - rewrite read_post_run. unfold read_outcome.
    destruct (remote (ReqFetch id) (world s)) as [w' [d | e]]; simpl.
    + destruct (fromtimestamp (sd_created_utc d)) as [t | e]; simpl.
      * right. by eexists.
      * left. split; [done|]. by apply logged_one_logged.
    + left. split; [done|]. by apply logged_one_logged.
  - rewrite update_post_run. unfold flag_outcome.
    destruct (remote (ReqEdit id body) (world s)) as [w' [[] | e]]; simpl.
    + right. split; [done|]. by apply logged_one_logged.
    + left. split; [done|]. by apply logged_one_logged.
  - rewrite delete_post_run. unfold flag_outcome.
    destruct (remote (ReqDelete id) (world s)) as [w' [[] | e]]; simpl.
    + right. split; [done|]. by apply logged_one_logged.
    + left. split; [done|]. by apply logged_one_logged.
Qed.

(** The submission request of each kind of post. *)
Definition submit_request (kind subreddit_name title content : string)
  : option request :=
  if bool_decide (kind = "text") then
    Some (ReqSubmitSelftext subreddit_name title content)
  else if bool_decide (kind = "link") then
    Some (ReqSubmitUrl subreddit_name title content)
  else if bool_decide (kind = "image") then
    Some (ReqSubmitImage subreddit_name title content)
  else None.

Lemma create_outcome_calls r out (s : State World) :
  calls (create_outcome r out s).1 = (calls s ++ [r])%list.
Proof. by destruct out as [w' [id | e]]. Qed.

Lemma flag_outcome_calls r m1 m2 out (s : State World) :
  calls (flag_outcome r m1 m2 out s).1 = (calls s ++ [r])%list ∧
  world (flag_outcome r m1 m2 out s).1 = out.1.
Proof. by destruct out as [w' [[] | e]]. Qed.

Lemma create_post_calls sr title content kind (s : State World) :
  calls (create_post sr title content (Some kind) s).1 =
    (calls s ++ option_list (submit_request kind sr title content))%list.
Proof.
  destruct (not_text_link_image_dec kind) as [-> | [-> | [-> | (Ht & Hl & Hi)]]].
  - rewrite create_post_text. apply create_outcome_calls.
  - rewrite create_post_link. apply create_outcome_calls.
  - rewrite create_post_image. apply create_outcome_calls.
  - rewrite (create_post_other _ _ _ _ _ Ht Hl Hi). unfold submit_request.
    rewrite !bool_decide_eq_false_2 by done. simpl.
    unfold calls. simpl. by rewrite app_nil_r.
Qed.

Lemma read_post_calls id (s : State World) :
  calls (read_post id s).1 = (calls s ++ [ReqFetch id])%list ∧
  world (read_post id s).1 = (remote (ReqFetch id) (world s)).1.
Proof.
  rewrite read_post_run. unfold read_outcome.
  destruct (remote (ReqFetch id) (world s)) as [w' [d | e]]; simpl; [|done].
  by destruct (fromtimestamp (sd_created_utc d)).
Qed.

Lemma update_post_calls id body (s : State World) :
  calls (update_post id body s).1 = (calls s ++ [ReqEdit id body])%list ∧
  world (update_post id body s).1 = (remote (ReqEdit id body) (world s)).1.
Proof. rewrite update_post_run. apply flag_outcome_calls. Qed.

Lemma delete_post_calls id (s : State World) :
  calls (delete_post id s).1 = (calls s ++ [ReqDelete id])%list ∧
  world (delete_post id s).1 = (remote (ReqDelete id) (world s)).1.
Proof. rewrite delete_post_run. apply flag_outcome_calls. Qed.

Lemma get_recent_posts_calls limit (s : State World) :
  calls (get_recent_posts (Some limit) s).1 =
    (calls s ++ ReqMe ::
       match (remote ReqMe (world s)).2 with
       | Ok user => [ReqSubmissionsNew user limit]
       | Raise _ => []
       end)%list.
Proof.
  rewrite get_recent_posts_run. unfold recent_outcome.
  destruct (remote ReqMe (world s)) as [w1 [user | e]]; simpl.
  - destruct (remote (ReqSubmissionsNew user limit) w1) as [w2 [posts | e]];
      unfold calls, logged, sent, calls; simpl; by rewrite <- app_assoc.
  - done.
Qed.


(** None of the five operations raises. *)
Lemma create_post_returns sr title content kind (s : State World) :
  ∃ r, (create_post sr title content kind s).2 = Ok r.
Proof.
  assert (Hk : ∃ k, create_post sr title content kind s
                    = create_post sr title content (Some k) s).
  { destruct kind as [k|]; [by exists k | by exists "text"]. }
  destruct Hk as [k ->].
  destruct (not_text_link_image_dec k) as [-> | [-> | [-> | (Ht & Hl & Hi)]]].
  - rewrite create_post_text. unfold create_outcome.
    destruct (remote _ (world s)) as [w' [id | e]]; by eexists.
  - rewrite create_post_link. unfold create_outcome.
    destruct (remote _ (world s)) as [w' [id | e]]; by eexists.
  - rewrite create_post_image. unfold create_outcome.
    destruct (remote _ (world s)) as [w' [id | e]]; by eexists.
  - rewrite (create_post_other _ _ _ _ _ Ht Hl Hi). by eexists.
Qed.

Lemma read_post_returns id (s : State World) : ∃ r, (read_post id s).2 = Ok r.
Proof.
  rewrite read_post_run. unfold read_outcome.
  destruct (remote (ReqFetch id) (world s)) as [w' [d | e]]; simpl.
  - destruct (fromtimestamp (sd_created_utc d)); by eexists.
  - by eexists.
Qed.

Lemma update_post_returns id body (s : State World) :
  ∃ r, (update_post id body s).2 = Ok r.
Proof.
  rewrite update_post_run. unfold flag_outcome.
  destruct (remote _ (world s)) as [w' [[] | e]]; by eexists.
Qed.

Lemma delete_post_returns id (s : State World) :
  ∃ r, (delete_post id s).2 = Ok r.
Proof.
  rewrite delete_post_run. unfold flag_outcome.
  destruct (remote _ (world s)) as [w' [[] | e]]; by eexists.
Qed.

Lemma get_recent_posts_returns limit (s : State World) :
  ∃ posts, (get_recent_posts (Some limit) s).2 = Ok (map post_entry posts).
Proof.
  rewrite get_recent_posts_run. unfold recent_outcome.
  destruct (remote ReqMe (world s)) as [w1 [user | e]]; simpl.
  - destruct (remote (ReqSubmissionsNew user limit) w1) as [w2 [posts | e]];
      simpl; [by exists posts | by exists []].
  - by exists [].
Qed.
End FacadeMore.

(** * The drop-down of recent posts *)

Section Titles.
Import RedditManager App.

Lemma od_get_set k v k' d :
  od_get k' (od_set k v d) = if bool_decide (k = k') then Some v else od_get k' d.
Proof.
  induction d as [|[k0 v0] d IH]; simpl.
  - done.
  - destruct (decide (k0 = k)) as [-> | Hne].
    + rewrite bool_decide_eq_true_2 by done. simpl. by case_bool_decide.
    + rewrite (bool_decide_eq_false_2 (k0 = k)) by done. simpl. rewrite IH.
      destruct (decide (k0 = k')) as [-> | Hne'].
      * rewrite bool_decide_eq_true_2 by done.
        by rewrite bool_decide_eq_false_2 by congruence.
      * by rewrite (bool_decide_eq_false_2 (k0 = k')) by done.
Qed.

Lemma od_keys_set k v d :
  od_keys (od_set k v d) =
  if bool_decide (k ∈ od_keys d) then od_keys d else (od_keys d ++ [k])%list.
Proof.
  unfold od_keys. induction d as [|[k0 v0] d IH]; simpl.
  - done.
  - destruct (decide (k0 = k)) as [-> | Hne].
    + rewrite bool_decide_eq_true_2 by done. simpl.
      rewrite bool_decide_eq_true_2 by set_solver. done.
    + rewrite (bool_decide_eq_false_2 (k0 = k)) by done. simpl. rewrite IH.
      destruct (decide (k ∈ map fst d)) as [Hin | Hnin].
      * rewrite !bool_decide_eq_true_2 by set_solver. done.
      * rewrite !bool_decide_eq_false_2 by set_solver. done.
Qed.

Lemma od_get_is_Some k d : is_Some (od_get k d) ↔ k ∈ od_keys d.
Proof.
  unfold od_keys. induction d as [|[k0 v0] d IH]; simpl.
  - split; [by intros [? ?] | by intros ?%elem_of_nil].
  - destruct (decide (k0 = k)) as [-> | Hne].
    + rewrite bool_decide_eq_true_2 by done. split; [set_solver | by eexists].
    + rewrite bool_decide_eq_false_2 by done. rewrite IH. set_solver.
Qed.

(** The dictionary after the entries of [posts] were assigned in order. *)
Definition titles_dict (posts : list SubmissionData) (acc : list (string * string))
  : list (string * string) :=
  fold_left (λ acc p, od_set (sd_title p) (sd_id p) acc) posts acc.

(** The id of the last post of the list that carries the title, [r]
    when there is none. *)
Definition last_id (title : string) (posts : list SubmissionData)
    (r : option string) : option string :=
  fold_left (λ r p, if bool_decide (sd_title p = title) then Some (sd_id p) else r)
            posts r.

Lemma post_titles_of_entries posts acc :
  post_titles_of (map post_entry posts) acc = Ok (titles_dict posts acc).
Proof.
  revert acc. induction posts as [|p posts IH]; intros acc; simpl; [done|].
  unfold getitem, post_entry at 1 2.
  rewrite lookup_insert_eq, lookup_insert_ne, lookup_insert_eq by done.
  apply IH.
Qed.

Lemma titles_dict_get title posts acc :
  od_get title (titles_dict posts acc) = last_id title posts (od_get title acc).
Proof.
  revert acc. induction posts as [|p posts IH]; intros acc; simpl; [done|].
  unfold titles_dict, last_id in *. simpl. rewrite IH. by rewrite od_get_set.
Qed.

Lemma titles_dict_keys posts acc :
  NoDup (od_keys acc) →
  NoDup (od_keys (titles_dict posts acc)) ∧
  ∀ t, t ∈ od_keys (titles_dict posts acc) ↔ t ∈ od_keys acc ∨ t ∈ map sd_title posts.
Proof.
  revert acc. induction posts as [|p posts IH]; intros acc Hnd; simpl.
  - split; [done | set_solver].
  - assert (Hnd' : NoDup (od_keys (od_set (sd_title p) (sd_id p) acc))).
    { rewrite od_keys_set. case_bool_decide; [done|].
      apply NoDup_app. split; [done|]. split; [set_solver | apply NoDup_singleton]. }
    destruct (IH _ Hnd') as [Hn Hk]. split; [exact Hn|].
    intros t. unfold titles_dict in *. simpl. rewrite Hk, od_keys_set.
    case_bool_decide; set_solver.
Qed.

Lemma last_id_elem title posts r id :
  last_id title posts r = Some id →
  r = Some id ∨ ∃ p, p ∈ posts ∧ sd_title p = title ∧ sd_id p = id.
Proof.
  revert r. induction posts as [|p posts IH]; intros r; simpl; [by left|].
  intros Hl. apply IH in Hl as [Hr | (q & Hq & Ht & Hi)].
  - case_bool_decide; [|by left]. right. exists p.
    injection Hr as <-. split; [set_solver | done].
  - right. exists q. split; [set_solver | done].
Qed.

Lemma last_id_app title posts p r :
  last_id title (posts ++ [p]) r =
  if bool_decide (sd_title p = title) then Some (sd_id p) else last_id title posts r.
Proof. unfold last_id. by rewrite fold_left_app. Qed.

Lemma choose_elem (options : list string) i :
  options ≠ [] → choose options i ∈ options.
Proof.
  intros Hne. unfold choose. destruct (options !! i) as [o|] eqn:Ho.
  - by eapply list_elem_of_lookup_2.
  - destruct options; [done | set_solver].
Qed.

(** The dictionary comprehension of the drop-down, on the entries that
    [get_recent_posts] builds: it never fails on a missing key, offers
    each title once, and maps a title to the id of the last listed post
    that carries it, so a post whose title is repeated further down the
    listing cannot be selected. *)
Theorem post_titles_last_wins (posts : list SubmissionData) :
  ∃ d, post_titles_of (map post_entry posts) [] = Ok d ∧
       NoDup (od_keys d) ∧
       (∀ t, t ∈ od_keys d ↔ t ∈ map sd_title posts) ∧
       (∀ t, od_get t d = last_id t posts None) ∧
       (∀ before p after,
          posts = (before ++ [p] ++ after)%list →
          sd_title p ∉ map sd_title after →
          od_get (sd_title p) d = Some (sd_id p)).
Proof.
  exists (titles_dict posts []). split; [apply post_titles_of_entries|].
  destruct (titles_dict_keys posts []) as [Hn Hk]; [apply NoDup_nil_2|].
  split; [exact Hn|]. split; [|split].
  - intros t. rewrite Hk. unfold od_keys. set_solver.
  - intros t. by rewrite titles_dict_get.
  - intros before p after -> Hnot. rewrite titles_dict_get. simpl.
    clear Hn Hk. unfold last_id. rewrite fold_left_app. simpl.
    rewrite bool_decide_eq_true_2 by done.
    generalize (sd_id p). intros v.
    induction after as [|q after IH]; [done|]. simpl.
    rewrite bool_decide_eq_false_2 by set_solver. apply IH. set_solver.
Qed.
End Titles.

Section Dropdown.
Context {World : Type} `{Backend World}.
Import RedditManager App.

Lemma titles_dict_nonempty p posts : od_keys (titles_dict (p :: posts) []) ≠ [].
Proof.
  destruct (titles_dict_keys (p :: posts) []) as [_ Hk]; [apply NoDup_nil_2|].
  intros He. specialize (Hk (sd_title p)). rewrite He in Hk.
  assert (Hin : sd_title p ∈ ([] : list string)).
  { apply Hk. right. simpl. apply list_elem_of_here. }
  by apply elem_of_nil in Hin.
Qed.

Lemma titles_dict_choice posts i :
  posts ≠ [] →
  ∃ p, p ∈ posts ∧
       od_get (choose (od_keys (titles_dict posts [])) i) (titles_dict posts [])
       = Some (sd_id p).
Proof.
  intros Hne. destruct posts as [|p0 posts]; [done|].
  pose proof (choose_elem _ i (titles_dict_nonempty p0 posts)) as Hin.
  apply od_get_is_Some in Hin as [id Hid]. rewrite Hid.
  rewrite titles_dict_get in Hid.
  apply last_id_elem in Hid. destruct Hid as [Hid | (q & Hq & _ & Hi)];
    [discriminate Hid|].
  exists q. by rewrite Hi.
Qed.

(** What the drop-down does once the facade is bound, in terms of the
    submissions [posts] that the listing returned. *)
Definition dropdown_outcome (i : nat) (posts : list SubmissionData)
    (s' : State World) (a : AppState World) : AppState World * result (option string) :=
  match posts with
  | [] =>
      (MkApp (Some (st_self s')) (st_proc s')
             (a_ui a ++ [st_warning "No recent posts found."]), Ok None)
  | _ :: _ =>
      let d := titles_dict posts [] in
      (MkApp (Some (st_self s')) (st_proc s')
             (a_ui a ++ [st_selectbox "Select a Post" (od_keys d)]),
       Ok (od_get (choose (od_keys d) i) d))
  end.

Lemma dropdown_bound i (a : AppState World) m :
  reddit_manager a = Some m →
  ∃ posts s',
    get_recent_posts (Some 10%nat) (MkState m (a_proc a))
      = (s', Ok (map post_entry posts)) ∧
    get_recent_posts_dropdown i a = dropdown_outcome i posts s' a.
Proof.
  intros Hm.
  destruct (get_recent_posts_returns 10 (MkState m (a_proc a))) as [posts Hr].
  destruct (get_recent_posts (Some 10%nat) (MkState m (a_proc a))) as [s' r] eqn:Hg.
  simpl in Hr. subst r. exists posts, s'. split; [done|].
  unfold get_recent_posts_dropdown, bind at 1, call_manager. rewrite Hm, Hg.
  destruct posts as [|p posts]; [reflexivity|].
  change (map post_entry (p :: posts)) with (post_entry p :: map post_entry posts).
  cbv iota beta.
  change (post_entry p :: map post_entry posts) with (map post_entry (p :: posts)).
  rewrite post_titles_of_entries.
  destruct (titles_dict_choice (p :: posts) i) as (q & _ & Hq); [done|].
  unfold dropdown_outcome. cbv zeta.
  unfold bind, lift_result, selectbox, bind, show, modify, ret. simpl.
  change (titles_dict (p :: posts) [])
    with (titles_dict posts [(sd_title p, sd_id p)]) in Hq.
  rewrite Hq. reflexivity.
Qed.

(** With the facade bound the drop-down never raises.  When the listing
    is empty (or failed) it shows a warning and returns [None];
    otherwise it shows one select box with each title once and returns
    the id of one of the listed posts. *)
Theorem dropdown_returns_listed_id i (a : AppState World) m :
  reddit_manager a = Some m →
  ∃ posts,
    (get_recent_posts (Some 10%nat) (MkState m (a_proc a))).2
      = Ok (map post_entry posts) ∧
    ((posts = [] ∧
      (get_recent_posts_dropdown i a).2 = Ok None ∧
      a_ui (get_recent_posts_dropdown i a).1
        = (a_ui a ++ [st_warning "No recent posts found."])%list) ∨
     (∃ p titles,
        p ∈ posts ∧
        (get_recent_posts_dropdown i a).2 = Ok (Some (sd_id p)) ∧
        NoDup titles ∧ (∀ t, t ∈ titles ↔ t ∈ map sd_title posts) ∧
        a_ui (get_recent_posts_dropdown i a).1
          = (a_ui a ++ [st_selectbox "Select a Post" titles])%list)).
Proof.
  intros Hm. destruct (dropdown_bound i a m Hm) as (posts & s' & Hg & ->).
  exists posts. rewrite Hg. split; [done|].
  destruct posts as [|p posts]; [by left|]. right.
  destruct (titles_dict_choice (p :: posts) i) as (q & Hin & Hq); [done|].
  destruct (titles_dict_keys (p :: posts) []) as [Hn Hk]; [apply NoDup_nil_2|].
  exists q, (od_keys (titles_dict (p :: posts) [])).
  split; [done|]. unfold dropdown_outcome. cbv zeta.
  unfold fst, snd. rewrite Hq.
  split; [done|]. split; [done|]. split; [|done].
  intros t. rewrite Hk. clear. unfold od_keys. simpl. set_solver.
Qed.
End Dropdown.

(** * Outcomes of a run of the script *)

Section Triples.
Context {S : Type}.

(** From a state in [I], [c] ends in a state in [I]; a value it returns
    satisfies [R] and an exception it raises satisfies [E]. *)
Definition triple {A} (I : S → Prop) (c : Comp S A) (R : A → Prop)
    (E : exn → Prop) : Prop :=
  ∀ s, I s → I (c s).1 ∧ match (c s).2 with Ok x => R x | Raise e => E e end.

Lemma triple_ret {A} I (a : A) (R : A → Prop) E : R a → triple I (ret a) R E.
Proof. intros Ha s Hs. by split. Qed.

Lemma triple_raise {A} I e (R : A → Prop) (E : exn → Prop) :
  E e → triple I (raise e) R E.
Proof. intros He s Hs. by split. Qed.

Lemma triple_lift_result {A} I (r : result A) (R : A → Prop) (E : exn → Prop) :
  match r with Ok x => R x | Raise e => E e end → triple I (lift_result r) R E.
Proof. intros Hr s Hs. by split. Qed.

Lemma triple_bind {A B} I (c : Comp S A) (k : A → Comp S B) R1 R E :
  triple I c R1 E → (∀ x, R1 x → triple I (k x) R E) → triple I (bind c k) R E.
Proof.
  intros Hc Hk s Hs. destruct (Hc s Hs) as [Hi Hr]. unfold bind.
  destruct (c s) as [s' [x | e]]; simpl in *.
  - by apply Hk.
  - by split.
Qed.

Lemma triple_try_except {A} I (c : Comp S A) (h : exn → Comp S A) R E1 E :
  triple I c R E1 → (∀ e, E1 e → triple I (h e) R E) →
  triple I (try_except c h) R E.
Proof.
  intros Hc Hh s Hs. destruct (Hc s Hs) as [Hi Hr]. unfold try_except.
  destruct (c s) as [s' [x | e]]; simpl in *.
  - by split.
  - by apply Hh.
Qed.

Lemma triple_weaken {A} I (c : Comp S A) (R R' : A → Prop) (E E' : exn → Prop) :
  triple I c R E → (∀ x, R x → R' x) → (∀ e, E e → E' e) → triple I c R' E'.
Proof.
  intros Hc HR HE s Hs. destruct (Hc s Hs) as [Hi Hr]. split; [done|].
  destruct (c s).2; auto.
Qed.

Lemma triple_run {A} I (c : Comp S A) R E s :
  triple I c R E → I s →
  I (c s).1 ∧ match (c s).2 with Ok x => R x | Raise e => E e end.
Proof. intros Hc Hs. by apply Hc. Qed.
End Triples.

Section Outcomes.
Context {World : Type} `{Backend World}.
Import RedditManager App.

(** Invariants that the page does not enter into. *)
Definition page_free (I : AppState World → Prop) : Prop :=
  ∀ a ui, I a → I (MkApp (reddit_manager a) (a_proc a) ui).

Lemma triple_show I w E : page_free I → triple I (show w) (λ _, True) E.
Proof. intros HI a Ha. split; [by apply HI | done]. Qed.

Lemma triple_selectbox I label options i E :
  page_free I →
  triple I (selectbox label options i) (λ x, x = choose options i) E.
Proof. intros HI a Ha. split; [by apply HI | done]. Qed.

Lemma triple_text_input I label v E :
  page_free I → triple I (text_input label v) (λ x, x = v) E.
Proof. intros HI a Ha. split; [by apply HI | done]. Qed.

Lemma triple_text_area I label v E :
  page_free I → triple I (text_area label v) (λ x, x = v) E.
Proof. intros HI a Ha. split; [by apply HI | done]. Qed.

Lemma triple_button I label pressed E :
  page_free I → triple I (button label pressed) (λ x, x = pressed) E.
Proof. intros HI a Ha. split; [by apply HI | done]. Qed.

(** The button of a form that has a drop-down is true only if it was
    pressed. *)
Lemma triple_and_button I post_id label pressed E :
  page_free I →
  triple I (and_button post_id label pressed)
         (λ go, go = true → pressed = true ∧ truthy post_id = true) E.
Proof.
  intros HI a Ha. unfold and_button. destruct (truthy post_id).
  - split; [by apply HI | by intros ->].
  - split; [done | done].
Qed.

(** ** The two ways a run starts *)

Definition sidebar : list widget :=
  [st_sidebar_selectbox "Select Social Media Platform" platforms;
   st_sidebar_selectbox "Select Operation" operations].

Definition init_record : log_record :=
  (module_name, INFO, "Reddit Manager initialized successfully").

Lemma run_complete env inp (w : World) :
  missing_vars env = [] →
  ∃ m, run env inp w =
       dispatch (choose platforms (in_platform inp))
                (choose operations (in_operation inp)) inp
                (MkApp (Some m) (MkProc w [] [init_record]) sidebar).
Proof.
  intros He. destruct (init_complete env (MkProc w [] []) He) as (m & Hm & _).
  exists m. unfold run, script, start, construct, sidebar_selectbox.
  unfold bind at 1. unfold try_except. simpl. rewrite Hm. reflexivity.
Qed.

Lemma operation_cases i :
  choose operations i = "Create Post" ∨ choose operations i = "Read Post" ∨
  choose operations i = "Update Post" ∨ choose operations i = "Delete Post".
Proof.
  assert (Hin : choose operations i ∈ operations) by (by apply choose_elem).
  unfold operations in Hin. set_solver.
Qed.

(** The placeholders are inert.  For a platform other than Reddit the
    page holds the two sidebar selectors and the line that the
    integration is coming soon, after the construction error if there
    was one; no request is sent and the run ends normally. *)
Theorem other_platforms_are_inert env inp (w : World) :
  choose platforms (in_platform inp) ≠ "Reddit" →
  (run env inp w).2 = Ok tt ∧
  p_calls (a_proc (run env inp w).1) = [] ∧
  p_world (a_proc (run env inp w).1) = w ∧
  a_ui (run env inp w).1 =
    (match missing_vars env with
     | [] => []
     | _ :: _ => [init_failed (ValueError (missing_message (missing_vars env)))]
     end ++ sidebar ++
     [st_write (choose platforms (in_platform inp) +:+ " integration coming soon!")])%list.
Proof.
  intros Hp. destruct (missing_vars env) as [|v l] eqn:He.
  - destruct (run_complete env inp w He) as [m ->].
    unfold dispatch. by rewrite bool_decide_eq_false_2.
  - rewrite run_missing by (by rewrite He).
    unfold dispatch, failed_page. rewrite bool_decide_eq_false_2 by done.
    rewrite He. done.
Qed.

(** After a failed construction the run stops on the unbound name as
    soon as a form reaches for the facade: at once in the Read, Update
    and Delete forms (their drop-down), and in the Create form when its
    button is pressed.  Otherwise the run ends normally. *)
Theorem failed_construction_outcome env inp (w : World) :
  missing_vars env ≠ [] →
  (run env inp w).2 =
    if bool_decide (choose platforms (in_platform inp) = "Reddit")
       && (negb (bool_decide (choose operations (in_operation inp) = "Create Post"))
           || in_button inp)
    then Raise (NameError "reddit_manager")
    else Ok tt.
Proof.
  intros Hne. rewrite (run_missing env inp w Hne). unfold dispatch.
  destruct (bool_decide (choose platforms (in_platform inp) = "Reddit"));
    [|reflexivity].
  destruct (operation_cases (in_operation inp)) as [-> | [-> | [-> | ->]]];
    simpl; unfold create_branch, read_branch, update_branch, delete_branch;
    destruct (in_button inp); reflexivity.
Qed.
(** ** A run with the facade constructed *)

(** The requests a run may send, by the operation selected and whether
    the button of its form was pressed. *)
Definition permitted (operation : string) (pressed : bool) (r : request) : Prop :=
  match r with
  | ReqMe => operation ≠ "Create Post"
  | ReqSubmissionsNew _ limit => operation ≠ "Create Post" ∧ limit = 10%nat
  | ReqSubmitSelftext _ _ _ | ReqSubmitUrl _ _ _ | ReqSubmitImage _ _ _ =>
      operation = "Create Post" ∧ pressed = true
  | ReqFetch _ =>
      pressed = true ∧ (operation = "Read Post" ∨ operation = "Update Post")
  | ReqEdit _ _ => pressed = true ∧ operation = "Update Post"
  | ReqDelete _ => pressed = true ∧ operation = "Delete Post"
  end.

(** The facade is bound and every request sent so far satisfies [P]. *)
Definition ready (P : request → Prop) (a : AppState World) : Prop :=
  is_Some (reddit_manager a) ∧ Forall P (p_calls (a_proc a)).

Lemma ready_page_free P : page_free (ready P).
Proof. intros a ui Ha. exact Ha. Qed.

Lemma triple_call_ready {A} P (method : Comp (State World) A) (R : A → Prop) E :
  (∀ s, Forall P (calls s) →
        Forall P (calls (method s).1) ∧ ∃ r, (method s).2 = Ok r ∧ R r) →
  triple (ready P) (call_manager method) R E.
Proof.
  intros Hm a [[m Hb] Hc]. unfold call_manager. rewrite Hb.
  destruct (Hm (MkState m (a_proc a)) Hc) as (Hc' & r & Hr & HR).
  destruct (method (MkState m (a_proc a))) as [s' r'].
  simpl in *. subst r'. split; [split; [by eexists | exact Hc'] | exact HR].
Qed.

Lemma triple_dropdown_ready P i E :
  P ReqMe → (∀ user, P (ReqSubmissionsNew user 10)) →
  triple (ready P) (get_recent_posts_dropdown i) (λ _, True) E.
Proof.
  intros Hme Hnew a [[m Hb] Hc].
  destruct (dropdown_bound i a m Hb) as (posts & s' & Hg & ->).
  assert (Hc' : Forall P (p_calls (st_proc s'))).
  { pose proof (get_recent_posts_calls 10 (MkState m (a_proc a))) as Hcs.
    rewrite Hg in Hcs. unfold calls in Hcs. simpl in Hcs. rewrite Hcs.
    apply Forall_app. split; [exact Hc|]. constructor; [exact Hme|].
    match goal with
    | |- Forall P (match ?r with Ok _ => _ | Raise _ => _ end) =>
        destruct r as [user | e]
    end; [|apply Forall_nil_2].
    apply Forall_cons_2; [apply Hnew | apply Forall_nil_2]. }
  unfold dropdown_outcome. destruct posts; simpl; (split; [split|done]);
    (by eexists) || exact Hc'.
Qed.

Lemma submit_request_permitted kind sr title content :
  Forall (permitted "Create Post" true)
         (option_list (submit_request kind sr title content)).
Proof.
  unfold submit_request. repeat case_bool_decide; simpl;
    repeat constructor.
Qed.

Lemma create_branch_ready inp :
  triple (ready (permitted "Create Post" (in_button inp))) (create_branch inp)
         (λ _, True) (λ _, False).
Proof.
  pose proof (ready_page_free (permitted "Create Post" (in_button inp))) as HI.
  unfold create_branch.
  eapply triple_bind; [by apply triple_show | intros _ _].
  eapply triple_bind; [by apply triple_text_input | intros sr _].
  eapply triple_bind; [by apply triple_text_input | intros title _].
  eapply triple_bind; [by apply triple_text_area | intros content _].
  eapply triple_bind; [by apply triple_selectbox | intros kind _].
  eapply triple_bind; [by apply triple_button | intros pressed ->].
  destruct (in_button inp) eqn:Hb; [|by apply triple_ret].
  eapply triple_bind with (R1 := λ _, True).
  - apply triple_call_ready. intros s Hs. split.
    + rewrite create_post_calls. apply Forall_app. split; [exact Hs|].
      apply submit_request_permitted.
    + destruct (create_post_returns sr title content (Some kind) s) as [r Hr].
      by exists r.
  - intros post_id _. destruct (truthy post_id).
    + eapply triple_bind; [by apply triple_show | intros _ _].
      by apply triple_show.
    + by apply triple_show.
Qed.

Lemma read_branch_ready inp :
  triple (ready (permitted "Read Post" (in_button inp))) (read_branch inp)
         (λ _, True) (λ _, False).
Proof.
  pose proof (ready_page_free (permitted "Read Post" (in_button inp))) as HI.
  unfold read_branch.
  eapply triple_bind; [by apply triple_show | intros _ _].
  eapply triple_bind; [by apply triple_dropdown_ready | intros post_id _].
  eapply triple_bind; [by apply triple_and_button | intros go Hgo].
  destruct go; [|by apply triple_ret].
  destruct Hgo as [Hb _]; [done|].
  eapply triple_bind with (R1 := λ _, True).
  - apply triple_call_ready. intros s Hs. split.
    + destruct (read_post_calls (default "" post_id) s) as [-> _].
      apply Forall_app. split; [exact Hs|]. constructor; [|constructor].
      simpl. split; [exact Hb | by left].
    + destruct (read_post_returns (default "" post_id) s) as [r Hr]. by exists r.
  - intros [d|] _; [|by apply triple_show].
    destruct (bool_decide (d = ∅)); [by apply triple_show|].
    eapply triple_bind; [by apply triple_show | intros _ _].
    by apply triple_show.
Qed.

Lemma delete_branch_ready inp :
  triple (ready (permitted "Delete Post" (in_button inp))) (delete_branch inp)
         (λ _, True) (λ _, False).
Proof.
  pose proof (ready_page_free (permitted "Delete Post" (in_button inp))) as HI.
  unfold delete_branch.
  eapply triple_bind; [by apply triple_show | intros _ _].
  eapply triple_bind; [by apply triple_dropdown_ready | intros post_id _].
  eapply triple_bind; [by apply triple_and_button | intros go Hgo].
  destruct go; [|by apply triple_ret].
  destruct Hgo as [Hb _]; [done|].
  eapply triple_bind with (R1 := λ _, True).
  - apply triple_call_ready. intros s Hs. split.
    + destruct (delete_post_calls (default "" post_id) s) as [-> _].
      apply Forall_app. split; [exact Hs|]. constructor; [|constructor].
      simpl. by split.
    + destruct (delete_post_returns (default "" post_id) s) as [r Hr]. by exists r.
  - intros [|] _; [|by apply triple_show].
    eapply triple_bind; [by apply triple_show | intros _ _].
    by apply triple_show.
Qed.

Definition none_has_no_get : exn :=
  AttributeError "'NoneType' object has no attribute 'get'".

Lemma update_branch_ready inp :
  triple (ready (permitted "Update Post" (in_button inp))) (update_branch inp)
         (λ _, True) (λ e, e = none_has_no_get ∧ in_button inp = true).
Proof.
  pose proof (ready_page_free (permitted "Update Post" (in_button inp))) as HI.
  unfold update_branch.
  eapply triple_bind; [by apply triple_show | intros _ _].
  eapply triple_bind; [by apply triple_dropdown_ready | intros post_id _].
  eapply triple_bind; [by apply triple_text_area | intros new_content _].
  eapply triple_bind; [by apply triple_and_button | intros go Hgo].
  destruct go; [|by apply triple_ret].
  destruct Hgo as [Hb _]; [done|]. cbv zeta.
  eapply triple_bind with (R1 := λ _, True).
  - apply triple_call_ready. intros s Hs. split.
    + destruct (update_post_calls (default "" post_id) new_content s) as [-> _].
      apply Forall_app. split; [exact Hs|]. constructor; [|constructor].
      simpl. by split.
    + destruct (update_post_returns (default "" post_id) new_content s) as [r Hr].
      by exists r.
  - intros [|] _; [|by apply triple_show].
    eapply triple_bind; [by apply triple_show | intros _ _].
    eapply triple_bind with (R1 := λ _, True).
    + apply triple_call_ready. intros s Hs. split.
      * destruct (read_post_calls (default "" post_id) s) as [-> _].
        apply Forall_app. split; [exact Hs|]. constructor; [|constructor].
        simpl. split; [exact Hb | by right].
      * destruct (read_post_returns (default "" post_id) s) as [r Hr]. by exists r.
    + intros post_data _.
      eapply triple_bind with (R1 := λ _, True).
      * destruct post_data; [by apply triple_ret | by apply triple_raise].
      * intros v _. by apply triple_show.
Qed.

Lemma dispatch_ready platform operation inp :
  triple (ready (permitted operation (in_button inp)))
         (dispatch platform operation inp) (λ _, True)
         (λ e, e = none_has_no_get ∧ platform = "Reddit" ∧
               operation = "Update Post" ∧ in_button inp = true).
Proof.
  unfold dispatch. case_bool_decide as Hp.
  - case_bool_decide as Hc; [subst operation|].
    { eapply triple_weaken; [apply create_branch_ready | done | done]. }
    case_bool_decide as Hr; [subst operation|].
    { eapply triple_weaken; [apply read_branch_ready | done | done]. }
    case_bool_decide as Hu; [subst operation|].
    { eapply triple_weaken; [apply update_branch_ready | done |].
      by intros e [-> ->]. }
    case_bool_decide as Hd; [subst operation|].
    { eapply triple_weaken; [apply delete_branch_ready | done | done]. }
    by apply triple_ret.
  - apply triple_show, ready_page_free.
Qed.

(** With all five variables set, a run can end in one exception only:
    the [AttributeError] of the Update form, raised when the button was
    pressed, the update went through and reading the post back gave
    [None].  Every other run ends normally. *)
Theorem complete_run_outcome env inp (w : World) :
  missing_vars env = [] →
  (run env inp w).2 = Ok tt ∨
  ((run env inp w).2 = Raise none_has_no_get ∧
   choose platforms (in_platform inp) = "Reddit" ∧
   choose operations (in_operation inp) = "Update Post" ∧
   in_button inp = true).
Proof.
  intros He. destruct (run_complete env inp w He) as [m ->].
  destruct (dispatch_ready (choose platforms (in_platform inp))
              (choose operations (in_operation inp)) inp
              (MkApp (Some m) (MkProc w [] [init_record]) sidebar)) as [_ Hr].
  { split; [by eexists | constructor]. }
  destruct (dispatch _ _ _ _).2 as [[] | e]; [by left|].
  right. by destruct Hr as (-> & ? & ? & ?).
Qed.

(** What a run never sends.  The Create form sends nothing but the
    submission, and only when its button is pressed; the other forms
    ask for the account and its ten newest submissions, and send the
    fetch (Read, Update), the edit (Update) or the delete (Delete) only
    when their button is pressed.  In particular a run in which no
    button is pressed changes nothing on the remote side. *)
Theorem run_sends_only_permitted env inp (w : World) :
  Forall (permitted (choose operations (in_operation inp)) (in_button inp))
         (p_calls (a_proc (run env inp w).1)).
Proof.
  destruct (missing_vars env) as [|v l] eqn:He.
  - destruct (run_complete env inp w He) as [m ->].
    destruct (dispatch_ready (choose platforms (in_platform inp))
                (choose operations (in_operation inp)) inp
                (MkApp (Some m) (MkProc w [] [init_record]) sidebar)) as [[_ Hc] _].
    { split; [by eexists | constructor]. }
    exact Hc.
  - assert (Hne : missing_vars env ≠ []) by (by rewrite He).
    rewrite (run_missing env inp w Hne).
    destruct (keeps_unbound_dispatch (MkProc w [] []) (failed_page env)
                (choose platforms (in_platform inp))
                (choose operations (in_operation inp)) inp
                (MkApp None (MkProc w [] []) (failed_page env))) as (_ & -> & _).
    { split; [done | split; [done|]]. exists []. by rewrite app_nil_r. }
    constructor.
Qed.
(** ** The Create form *)





End Outcomes.

(** * RedditManager.py run as a script *)
Module Main.
Import RedditManager.

(** A line written by [print], kept as the value that the f-string
    formats. *)
Inductive printed :=
  | print_created (post_data : option (gmap string pyval))
  | print_update_status (update_success : bool)
  | print_deletion_status (delete_success : bool)
  | print_error (msg : string).

Definition test_title : string := "Test Post using Environment Variables".
Definition test_content : string :=
  "This is a test post created using PRAW with environment variables".
Definition updated_content : string :=
  "This content has been updated using environment variables".

Section Block.
Context {World : Type} `{Backend World}.

(** [__init__] when the module runs under the name [name], which is
    the name its logger gets. *)
Definition init_as (name : string) (env : gmap string string)
  : Comp (Proc World) RedditManager :=
  let client_id := getenv env "REDDIT_CLIENT_ID" in
  let client_secret := getenv env "REDDIT_CLIENT_SECRET" in
  let username := getenv env "REDDIT_USERNAME" in
  let password := getenv env "REDDIT_PASSWORD" in
  let user_agent := getenv env "REDDIT_USER_AGENT" in
  match missing_vars env with
  | _ :: _ => raise (ValueError (missing_message (missing_vars env)))
  | [] =>
      let reddit :=
        MkReddit client_id client_secret user_agent username password in
      let logger := name in
      emit logger INFO "Reddit Manager initialized successfully" >>
      ret (MkRedditManager client_id client_secret username password
                           user_agent reddit logger)
  end.

(** The name bound in the block, the rest of the process, and the
    lines printed. *)
Record MainState := MkMain {
  reddit_manager : option RedditManager;
  m_proc : Proc World;
  m_out : list printed
}.

Definition print (line : printed) : Comp MainState unit :=
  modify (λ a, MkMain (reddit_manager a) (m_proc a) (m_out a ++ [line])).

Definition construct (env : gmap string string) : Comp MainState unit :=
  λ a, match init_as "__main__" env (m_proc a) with
       | (p', Ok m) => (MkMain (Some m) p' (m_out a), Ok tt)
       | (p', Raise e) => (MkMain (reddit_manager a) p' (m_out a), Raise e)
       end.

Definition call {A} (method : Comp (State World) A) : Comp MainState A :=
  λ a, match reddit_manager a with
       | None => (a, Raise (NameError "reddit_manager"))
       | Some self =>
           let '(s', res) := method (MkState self (m_proc a)) in
           (MkMain (Some (st_self s')) (st_proc s') (m_out a), res)
       end.

(** The block under [if __name__ == "__main__":]. *)
Definition main (env : gmap string string) : Comp MainState unit :=
  try_except
    (construct env >>
     post_id <- call (create_post "test" test_title test_content (Some "text"));;
     if truthy post_id then
       let post_id := default "" post_id in
       post_data <- call (read_post post_id);;
       print (print_created post_data) >>
       update_success <- call (update_post post_id updated_content);;
       print (print_update_status update_success) >>
       delete_success <- call (delete_post post_id);;
       print (print_deletion_status delete_success)
     else ret tt)
    (λ e, print (print_error (exn_msg e))).

Definition start (w : World) : MainState := MkMain None (MkProc w [] []) [].
End Block.
Arguments MainState World : clear implicits.
End Main.

Section MainFacts.
Context {World : Type} `{Backend World}.
Import RedditManager Main.

Lemma init_as_module env : init_as module_name env = __init__ (World := World) env.
Proof. reflexivity. Qed.

Lemma init_as_missing name env (p : Proc World) :
  missing_vars env ≠ [] →
  init_as name env p = (p, Raise (ValueError (missing_message (missing_vars env)))).
Proof.
  intros Hne. unfold init_as. destruct (missing_vars env); [done | reflexivity].
Qed.


(** Run as a script with a required variable missing, the module
    prints the one error line and does nothing else: nothing is sent,
    nothing is logged, and the block ends normally. *)
Theorem main_stops_on_failed_construction env (w : World) :
  missing_vars env ≠ [] →
  main env (start w) =
  (MkMain None (MkProc w [] [])
          [print_error (missing_message (missing_vars env))],
   Ok tt).
Proof.
  intros Hne. unfold main, try_except, bind at 1, construct, start. simpl.
  by rewrite (init_as_missing _ env _ Hne).
Qed.


End MainFacts.

(** * Further runs on the in-memory service *)

Section MoreRuns.
Import RedditManager App MemReddit.

(** A post of the account whose creation time the host cannot
    convert, so that it can be edited but not read back. *)
Definition ancient_post : SubmissionData :=
  {| sd_id := "old001"; sd_title := "Before the epoch"; sd_selftext := "";
     sd_score := 1; sd_url := permalink "test" "old001";
     sd_created_utc := -1; sd_author := Some "alice";
     sd_num_comments := 0 |}.

Definition ancient_world : World := MkWorld "alice" [ancient_post] [] 1700000002.

(** Two posts of the account with one title, the newer first. *)
Definition newer_post : SubmissionData :=
  {| sd_id := "new002"; sd_title := "Hello"; sd_selftext := "again";
     sd_score := 1; sd_url := permalink "test" "new002";
     sd_created_utc := 1700000005; sd_author := Some "alice";
     sd_num_comments := 0 |}.

Definition twins_world : World :=
  MkWorld "alice" [newer_post; alice_post] [] 1700000006.

Definition bound_to (w : World) : AppState World :=
  MkApp (Some alice) (MkProc w [] []) [].

(** The update goes through, reading back fails, and the run ends in
    the [AttributeError] with the success line as the last widget. *)
Example update_form_crash :
  run full_env (no_input 2 true) ancient_world =
  (MkApp (Some alice)
     (MkProc (MkWorld "alice" [set_body "Edited" ancient_post] [] 1700000002)
        [ReqMe; ReqSubmissionsNew "alice" 10; ReqEdit "old001" "Edited";
         ReqFetch "old001"]
        [("RedditManager", INFO, "Reddit Manager initialized successfully");
         ("RedditManager", INFO, "Updated post: old001");
         ("RedditManager", ERROR, "Error reading post: year is out of range")])
     [st_sidebar_selectbox "Select Social Media Platform" platforms;
      st_sidebar_selectbox "Select Operation" operations;
      st_header "Update an Existing Reddit Post";
      st_selectbox "Select a Post" ["Before the epoch"];
      st_text_area "New Content";
      st_button "Update Post";
      st_success "Post updated successfully!"],
   Raise none_has_no_get).
Proof. by vm_compute. Qed.

(** With a repeated title the drop-down offers it once and hands back
    the older post. *)
Example dropdown_twins :
  get_recent_posts_dropdown 0 (bound_to twins_world) =
  (MkApp (Some alice)
     (MkProc twins_world [ReqMe; ReqSubmissionsNew "alice" 10] [])
     [st_selectbox "Select a Post" ["Hello"]],
   Ok (Some "abc123")).
Proof. by vm_compute. Qed.

Example main_round_trip :
  Main.main full_env (Main.start empty_world) =
  (Main.MkMain
     (Some (MkRedditManager (Some "cid") (Some "secret") (Some "alice")
              (Some "pw") (Some "crud/1.0")
              (MkReddit (Some "cid") (Some "secret") (Some "crud/1.0")
                 (Some "alice") (Some "pw"))
              "__main__"))
     (MkProc (MkWorld "alice" [] ["def456"] 1700000001)
        [ReqSubmitSelftext "test" Main.test_title Main.test_content;
         ReqFetch "abc123"; ReqEdit "abc123" Main.updated_content;
         ReqDelete "abc123"]
        [("__main__", INFO, "Reddit Manager initialized successfully");
         ("__main__", INFO, "Created post: abc123");
         ("__main__", INFO, "Updated post: abc123");
         ("__main__", INFO, "Deleted post: abc123")])
     [Main.print_created
        (Some (post_record "abc123"
                 {| sd_id := "abc123"; sd_title := Main.test_title;
                    sd_selftext := Main.test_content; sd_score := 1;
                    sd_url := permalink "test" "abc123";
                    sd_created_utc := 1700000000; sd_author := Some "alice";
                    sd_num_comments := 0 |} 1700000000));
      Main.print_update_status true;
      Main.print_deletion_status true],
   Ok tt).
Proof. by vm_compute. Qed.
End MoreRuns.

(** ** Instances of the further conditional properties *)

Lemma init_stores_credentials_witness :
  (RedditManager.client_id MemReddit.alice = RedditManager.getenv MemReddit.full_env "REDDIT_CLIENT_ID" ∧
   present (RedditManager.client_id MemReddit.alice)) ∧
  (RedditManager.client_secret MemReddit.alice = RedditManager.getenv MemReddit.full_env "REDDIT_CLIENT_SECRET" ∧
   present (RedditManager.client_secret MemReddit.alice)) ∧
  (RedditManager.username MemReddit.alice = RedditManager.getenv MemReddit.full_env "REDDIT_USERNAME" ∧
   present (RedditManager.username MemReddit.alice)) ∧
  (RedditManager.password MemReddit.alice = RedditManager.getenv MemReddit.full_env "REDDIT_PASSWORD" ∧
   present (RedditManager.password MemReddit.alice)) ∧
  (RedditManager.user_agent MemReddit.alice = RedditManager.getenv MemReddit.full_env "REDDIT_USER_AGENT" ∧
   present (RedditManager.user_agent MemReddit.alice)) ∧
  RedditManager.reddit MemReddit.alice =
    RedditManager.MkReddit (Some "cid") (Some "secret") (Some "crud/1.0")
      (Some "alice") (Some "pw") ∧
  MemReddit.empty_world = MemReddit.empty_world ∧
  ([] : list request) = [] ∧
  [("RedditManager", INFO, "Reddit Manager initialized successfully")] =
  [("RedditManager", INFO, "Reddit Manager initialized successfully")].
Proof.
  apply (init_stores_credentials MemReddit.full_env
           (MkProc MemReddit.empty_world [] [])
           (MkProc MemReddit.empty_world []
              [("RedditManager", INFO, "Reddit Manager initialized successfully")])
           MemReddit.alice).
  vm_compute. reflexivity.
Defined.

Lemma other_platforms_witness :
  (App.run MemReddit.full_env (App.MkInputs 1 0 "" "" "" 0 0 "" true)
     MemReddit.world1).2 = Ok tt ∧
  p_calls (App.a_proc (App.run MemReddit.full_env
                         (App.MkInputs 1 0 "" "" "" 0 0 "" true) MemReddit.world1).1) = [] ∧
  p_world (App.a_proc (App.run MemReddit.full_env
                         (App.MkInputs 1 0 "" "" "" 0 0 "" true) MemReddit.world1).1)
    = MemReddit.world1 ∧
  App.a_ui (App.run MemReddit.full_env (App.MkInputs 1 0 "" "" "" 0 0 "" true)
              MemReddit.world1).1 =
    (match RedditManager.missing_vars MemReddit.full_env with
     | [] => []
     | _ :: _ =>
         [App.init_failed
            (ValueError (RedditManager.missing_message
                           (RedditManager.missing_vars MemReddit.full_env)))]
     end ++ sidebar ++ [App.st_write ("YouTube" +:+ " integration coming soon!")])%list.
Proof.
  apply (other_platforms_are_inert MemReddit.full_env
           (App.MkInputs 1 0 "" "" "" 0 0 "" true) MemReddit.world1).
  vm_compute. discriminate.
Defined.

Lemma failed_construction_outcome_witness :
  (App.run ∅ (no_input 3 false) MemReddit.world1).2 =
  Raise (NameError "reddit_manager").
Proof.
  apply (failed_construction_outcome ∅ (no_input 3 false) MemReddit.world1).
  vm_compute. discriminate.
Defined.

Lemma complete_run_outcome_witness :
  (App.run MemReddit.full_env (no_input 2 true) ancient_world).2 = Ok tt ∨
  ((App.run MemReddit.full_env (no_input 2 true) ancient_world).2
     = Raise none_has_no_get ∧
   App.choose App.platforms 0 = "Reddit" ∧
   App.choose App.operations 2 = "Update Post" ∧
   true = true).
Proof.
  apply (complete_run_outcome MemReddit.full_env (no_input 2 true) ancient_world).
  vm_compute. reflexivity.
Defined.

Lemma dropdown_witness :
  ∃ posts,
    (RedditManager.get_recent_posts (Some 10%nat)
       (RedditManager.MkState MemReddit.alice (MkProc twins_world [] []))).2
      = Ok (map RedditManager.post_entry posts) ∧
    ((posts = [] ∧
      (App.get_recent_posts_dropdown 0 (bound_to twins_world)).2 = Ok None ∧
      App.a_ui (App.get_recent_posts_dropdown 0 (bound_to twins_world)).1
        = ([] ++ [App.st_warning "No recent posts found."])%list) ∨
     (∃ p titles,
        p ∈ posts ∧
        (App.get_recent_posts_dropdown 0 (bound_to twins_world)).2
          = Ok (Some (sd_id p)) ∧
        NoDup titles ∧ (∀ t, t ∈ titles ↔ t ∈ map sd_title posts) ∧
        App.a_ui (App.get_recent_posts_dropdown 0 (bound_to twins_world)).1
          = ([] ++ [App.st_selectbox "Select a Post" titles])%list)).
Proof.
  apply (dropdown_returns_listed_id 0 (bound_to twins_world) MemReddit.alice).
  reflexivity.
Defined.


Lemma main_failed_construction_witness :
  Main.main ∅ (Main.start MemReddit.world1) =
  (Main.MkMain None (MkProc MemReddit.world1 [] [])
     [Main.print_error
        (RedditManager.missing_message (RedditManager.missing_vars ∅))],
   Ok tt).
Proof.
  apply (main_stops_on_failed_construction ∅ MemReddit.world1).
  vm_compute. discriminate.
Defined.


(** * Forms without a post to choose *)

Section EmptyForms.
Context {World : Type} `{Backend World}.
Import RedditManager App.

Lemma dropdown_empty i (a : AppState World) m :
  reddit_manager a = Some m →
  (get_recent_posts (Some 10%nat) (MkState m (a_proc a))).2 = Ok [] →
  get_recent_posts_dropdown i a =
  (MkApp (Some (st_self (get_recent_posts (Some 10%nat) (MkState m (a_proc a))).1))
         (st_proc (get_recent_posts (Some 10%nat) (MkState m (a_proc a))).1)
         (a_ui a ++ [st_warning "No recent posts found."]),
   Ok None).
Proof.
  intros Hm He. destruct (dropdown_bound i a m Hm) as (posts & s' & Hg & ->).
  rewrite Hg in He |- *. simpl in He. injection He as He.
  destruct posts; [reflexivity | discriminate He].
Qed.

(** When the listing is empty, or could not be fetched, the Read,
    Update and Delete forms show their header and the warning (the
    Update form also its text area) and no button: nothing can be
    pressed, nothing more is sent, and the run of the form ends
    normally. *)
Theorem forms_without_posts inp (a : AppState World) m :
  reddit_manager a = Some m →
  (get_recent_posts (Some 10%nat) (MkState m (a_proc a))).2 = Ok [] →
  let listed := (get_recent_posts (Some 10%nat) (MkState m (a_proc a))).1 in
  read_branch inp a =
    (MkApp (Some (st_self listed)) (st_proc listed)
           (a_ui a ++ [st_header "Read a Reddit Post";
                       st_warning "No recent posts found."]), Ok tt) ∧
  update_branch inp a =
    (MkApp (Some (st_self listed)) (st_proc listed)
           (a_ui a ++ [st_header "Update an Existing Reddit Post";
                       st_warning "No recent posts found.";
                       st_text_area "New Content"]), Ok tt) ∧
  delete_branch inp a =
    (MkApp (Some (st_self listed)) (st_proc listed)
           (a_ui a ++ [st_header "Delete a Reddit Post";
                       st_warning "No recent posts found."]), Ok tt).
Proof.
  intros Hm He. cbv zeta.
  assert (Hd : ∀ w,
    get_recent_posts_dropdown (in_select_post inp)
      (MkApp (reddit_manager a) (a_proc a) (a_ui a ++ [w])) =
    (MkApp (Some (st_self (get_recent_posts (Some 10%nat) (MkState m (a_proc a))).1))
           (st_proc (get_recent_posts (Some 10%nat) (MkState m (a_proc a))).1)
           ((a_ui a ++ [w]) ++ [st_warning "No recent posts found."]),
     Ok None)).
  { intros w. by apply (dropdown_empty _ (MkApp _ _ _) m). }
  split; [|split].
  - unfold read_branch. unfold bind at 1. unfold show at 1, modify.
    cbn [fst snd]. unfold bind at 1. rewrite Hd. cbn [fst snd].
    unfold bind, and_button, ret. simpl. by rewrite <- app_assoc.
  - unfold update_branch. unfold bind at 1. unfold show at 1, modify.
    cbn [fst snd]. unfold bind at 1. rewrite Hd. cbn [fst snd].
    unfold bind, text_area, and_button, show, modify, ret. simpl.
    by rewrite <- !app_assoc.
  - unfold delete_branch. unfold bind at 1. unfold show at 1, modify.
    cbn [fst snd]. unfold bind at 1. rewrite Hd. cbn [fst snd].
    unfold bind, and_button, ret. simpl. by rewrite <- app_assoc.
Qed.
End EmptyForms.

Lemma forms_without_posts_witness :
  let a := bound_to MemReddit.empty_world in
  let listed := (RedditManager.get_recent_posts (Some 10%nat)
                   (RedditManager.MkState MemReddit.alice (App.a_proc a))).1 in
  App.read_branch (no_input 1 true) a =
    (App.MkApp (Some (RedditManager.st_self listed)) (RedditManager.st_proc listed)
       (App.a_ui a ++ [App.st_header "Read a Reddit Post";
                       App.st_warning "No recent posts found."]), Ok tt) ∧
  App.update_branch (no_input 1 true) a =
    (App.MkApp (Some (RedditManager.st_self listed)) (RedditManager.st_proc listed)
       (App.a_ui a ++ [App.st_header "Update an Existing Reddit Post";
                       App.st_warning "No recent posts found.";
                       App.st_text_area "New Content"]), Ok tt) ∧
  App.delete_branch (no_input 1 true) a =
    (App.MkApp (Some (RedditManager.st_self listed)) (RedditManager.st_proc listed)
       (App.a_ui a ++ [App.st_header "Delete a Reddit Post";
                       App.st_warning "No recent posts found."]), Ok tt).
Proof.
  apply (forms_without_posts (no_input 1 true) (bound_to MemReddit.empty_world)
           MemReddit.alice); reflexivity.
Defined.

(** * Forms with a post chosen *)

Section ChosenPost.
Context {World : Type} `{Backend World}.
Import RedditManager App.

Lemma titles_dict_entries ps qs acc :
  map post_entry ps = map post_entry qs → titles_dict ps acc = titles_dict qs acc.
Proof.
  intros He. pose proof (post_titles_of_entries ps acc) as Hp.
  rewrite He, post_titles_of_entries in Hp. by injection Hp.
Qed.

Lemma call_manager_bound {A} (method : Comp (State World) A) (a : AppState World) m :
  reddit_manager a = Some m →
  call_manager method a =
  (MkApp (Some (st_self (method (MkState m (a_proc a))).1))
         (st_proc (method (MkState m (a_proc a))).1) (a_ui a),
   (method (MkState m (a_proc a))).2).
Proof. intros Hm. unfold call_manager. rewrite Hm. by destruct (method _). Qed.

(** The drop-down adds its one widget to whatever the page holds; its
    result and what it leaves of the process do not depend on the page. *)
Lemma dropdown_frame i m (p : Proc World) :
  ∃ widget r,
    ∀ ui, get_recent_posts_dropdown i (MkApp (Some m) p ui) =
          (MkApp (Some (st_self (get_recent_posts (Some 10%nat) (MkState m p)).1))
                 (st_proc (get_recent_posts (Some 10%nat) (MkState m p)).1)
                 (ui ++ [widget]), Ok r).
Proof.
  destruct (dropdown_bound i (MkApp (Some m) p []) m eq_refl)
    as (posts & s' & Hg & _). simpl in Hg.
  destruct posts as [|p0 posts].
  - exists (st_warning "No recent posts found."), None. intros ui.
    destruct (dropdown_bound i (MkApp (Some m) p ui) m eq_refl)
      as (posts2 & s2 & Hg2 & ->). simpl in Hg2. rewrite Hg in Hg2 |- *.
    injection Hg2 as <- He. destruct posts2; [reflexivity | discriminate He].
  - exists (st_selectbox "Select a Post" (od_keys (titles_dict (p0 :: posts) []))),
           (od_get (choose (od_keys (titles_dict (p0 :: posts) [])) i)
                   (titles_dict (p0 :: posts) [])).
    intros ui.
    destruct (dropdown_bound i (MkApp (Some m) p ui) m eq_refl)
      as (posts2 & s2 & Hg2 & ->). simpl in Hg2. rewrite Hg in Hg2 |- *.
    injection Hg2 as <- He.
    change (post_entry p0 :: map post_entry posts)
      with (map post_entry (p0 :: posts)) in He.
    rewrite (titles_dict_entries _ _ [] He).
    destruct posts2; [discriminate He | reflexivity].
Qed.

Lemma state_eta (s : State World) : MkState (st_self s) (st_proc s) = s.
Proof. by destruct s. Qed.

Lemma truthy_id (id : string) : id ≠ "" → truthy (Some id) = true.
Proof. intros Hid. simpl. by rewrite bool_decide_eq_false_2. Qed.

(** With the button pressed, each form acts on the post that the
    drop-down returned and on no other: after the two requests of the
    listing, the Read form sends the fetch of that id, the Delete form
    its delete, and the Update form the edit of that id with the text
    typed, followed by the fetch of the same id only if the edit went
    through. *)
Theorem forms_act_on_chosen_post inp (a : AppState World) m id :
  reddit_manager a = Some m →
  in_button inp = true →
  (get_recent_posts_dropdown (in_select_post inp) a).2 = Ok (Some id) →
  id ≠ "" →
  let listed := (get_recent_posts (Some 10%nat) (MkState m (a_proc a))).1 in
  p_calls (a_proc (read_branch inp a).1) = (calls listed ++ [ReqFetch id])%list ∧
  p_calls (a_proc (delete_branch inp a).1) = (calls listed ++ [ReqDelete id])%list ∧
  p_calls (a_proc (update_branch inp a).1) =
    (calls listed ++ ReqEdit id (in_new_content inp) ::
       if completed (remote (ReqEdit id (in_new_content inp)) (world listed)).2
       then [ReqFetch id] else [])%list.
Proof.
  intros Hm Hb Hd Hid. cbv zeta.
  destruct (dropdown_frame (in_select_post inp) m (a_proc a)) as (wd & r & Hf).
  assert (Hr : r = Some id).
  { destruct a as [rm p ui]. simpl in *. subst rm. rewrite Hf in Hd.
    by injection Hd. }
  subst r.
  set (listed := (get_recent_posts (Some 10%nat) (MkState m (a_proc a))).1) in *.
  split; [|split].
  - unfold read_branch. unfold bind at 1. unfold show at 1, modify.
    cbn [fst snd]. rewrite Hm. unfold bind at 1. rewrite Hf. cbn [fst snd].
    unfold bind at 1, and_button. rewrite (truthy_id id Hid), Hb.
    unfold button, bind at 1, show at 1, modify, ret. cbn [fst snd].
    unfold bind at 1. erewrite call_manager_bound by reflexivity.
    cbn [fst snd a_proc a_ui reddit_manager].
    change (default "" (Some id)) with id.
    rewrite state_eta.
    destruct (read_post_calls id listed) as [Hc _].
    destruct (read_post id listed) as [s2 [[d|] | e]]; cbn [fst snd] in *;
      [destruct (bool_decide (d = ∅))| |]; simpl; exact Hc.
  - unfold delete_branch. unfold bind at 1. unfold show at 1, modify.
    cbn [fst snd]. rewrite Hm. unfold bind at 1. rewrite Hf. cbn [fst snd].
    unfold bind at 1, and_button. rewrite (truthy_id id Hid), Hb.
    unfold button, bind at 1, show at 1, modify, ret. cbn [fst snd].
    unfold bind at 1. erewrite call_manager_bound by reflexivity.
    cbn [fst snd a_proc a_ui reddit_manager].
    change (default "" (Some id)) with id.
    rewrite state_eta.
    destruct (delete_post_calls id listed) as [Hc _].
    destruct (delete_post id listed) as [s2 [[|] | e]]; cbn [fst snd] in *;
      simpl; exact Hc.
  - unfold update_branch. unfold bind at 1. unfold show at 1, modify.
    cbn [fst snd]. rewrite Hm. unfold bind at 1. rewrite Hf. cbn [fst snd].
    unfold bind at 1, text_area at 1, bind at 1, show at 1, modify, ret.
    cbn [fst snd].
    unfold bind at 1, and_button. rewrite (truthy_id id Hid), Hb.
    unfold button, bind at 1, show at 1, modify, ret. cbn [fst snd].
    cbv zeta. unfold bind at 1.
    erewrite call_manager_bound by reflexivity.
    cbn [fst snd a_proc a_ui reddit_manager].
    change (default "" (Some id)) with id.
    rewrite state_eta.
    destruct (update_post_calls id (in_new_content inp) listed) as [Hc _].
    pose proof (update_post_run id (in_new_content inp) listed) as Hu.
    unfold flag_outcome in Hu.
    destruct (remote (ReqEdit id (in_new_content inp)) (world listed))
      as [w' [[] | e]]; rewrite Hu in Hc |- *; cbn [fst snd completed] in *.
    + set (s2 := logged INFO ("Updated post: " +:+ id)
                   (sent (ReqEdit id (in_new_content inp)) w' listed)) in *.
      unfold bind at 1, show at 1, modify. cbn [fst snd].
      unfold bind at 1.
      erewrite call_manager_bound by reflexivity.
      cbn [fst snd a_proc a_ui reddit_manager]. rewrite state_eta.
      destruct (read_post_calls id s2) as [Hc2 _].
      destruct (read_post id s2) as [s3 [[d|] | e]]; cbn [fst snd] in *;
        simpl; unfold calls in Hc2, Hc; rewrite Hc2, Hc;
        by rewrite <- app_assoc.
    + simpl. exact Hc.
Qed.
End ChosenPost.

Lemma forms_act_on_chosen_post_witness :
  let a := bound_to MemReddit.world1 in
  let listed := (RedditManager.get_recent_posts (Some 10%nat)
                   (RedditManager.MkState MemReddit.alice (App.a_proc a))).1 in
  p_calls (App.a_proc (App.read_branch (no_input 1 true) a).1)
    = (calls listed ++ [ReqFetch "abc123"])%list ∧
  p_calls (App.a_proc (App.delete_branch (no_input 1 true) a).1)
    = (calls listed ++ [ReqDelete "abc123"])%list ∧
  p_calls (App.a_proc (App.update_branch (no_input 1 true) a).1) =
    (calls listed ++ ReqEdit "abc123" "Edited" ::
       if completed (remote (ReqEdit "abc123" "Edited") (world listed)).2
       then [ReqFetch "abc123"] else [])%list.
Proof.
  apply (forms_act_on_chosen_post (no_input 1 true) (bound_to MemReddit.world1)
           MemReddit.alice "abc123"); [reflexivity | reflexivity | | discriminate].
  vm_compute. reflexivity.
Defined.
